(** * educredai backend: a shallow embedding of [backend/app.py]

    The development follows the Python module top to bottom: the string
    primitives the handlers rely on, the two heuristics
    ([detect_issuer_in_text], [quick_trust_score]), the static file route
    ([serve_frontend_file]) and the OCR route ([api_verify]).

    Conventions.
    - A Python [int] is a [Z]; a Python [bool] is a [bool].
    - A Python [str] is a [string] whose characters are read as the code
      points U+0000 .. U+00FF, so [String.length] is [len] and the character
      predicates below are Python's, restricted to that range.
    - A Python [bytes] is a [list byte].
    - A call that may raise returns in the monad [M], which also records the
      processing steps the handler has started. *)

From Stdlib Require Import ZArith Lia Bool Ascii String.
From Stdlib.Strings Require Import Byte.
From stdpp Require Import base option list strings gmap sorting.

Local Open Scope Z_scope.

(** ** Characters *)

Module Char.

Definition code (c : ascii) : N := N_of_ascii c.

(** [str.isspace] for one character: TAB..CR, FS..US, SPACE, NEL, NBSP. *)
Definition isspace (c : ascii) : bool :=
  let n := code c in
  ((9 <=? n) && (n <=? 13) || (28 <=? n) && (n <=? 32)
   || (n =? 133) || (n =? 160))%N.

(** The ten characters [int] accepts as digits. *)
Definition isdecimal (c : ascii) : bool :=
  let n := code c in ((48 <=? n) && (n <=? 57))%N.

(** [str.isdigit] for one character: the decimal digits and the three
    superscript digits U+00B2, U+00B3 and U+00B9. *)
Definition isdigit (c : ascii) : bool :=
  let n := code c in
  (isdecimal c || (n =? 178) || (n =? 179) || (n =? 185))%N.

(** [str.lower] for one character: A..Z, and U+00C0..U+00DE except the
    multiplication sign, move up by 32. *)
Definition lower (c : ascii) : ascii :=
  let n := code c in
  if ((65 <=? n) && (n <=? 90)
      || (192 <=? n) && (n <=? 222) && negb (n =? 215))%N
  then ascii_of_N (n + 32) else c.

Definition digit_value (c : ascii) : Z := Z.of_N (code c) - 48.

End Char.

(** ** Strings *)

Module Str.

Definition len (s : string) : Z := Z.of_nat (String.length s).

Fixpoint all (p : ascii -> bool) (s : string) : bool :=
  match s with
  | EmptyString => true
  | String c s' => p c && all p s'
  end.

(** [s.lower()] *)
Fixpoint lower (s : string) : string :=
  match s with
  | EmptyString => EmptyString
  | String c s' => String (Char.lower c) (lower s')
  end.

(** [s.startswith(p)] *)
Definition startswith (s p : string) : bool := String.prefix p s.

(** [kw in s] *)
Fixpoint contains (kw s : string) : bool :=
  String.prefix kw s ||
  match s with
  | EmptyString => false
  | String _ s' => contains kw s'
  end.

(** [s.endswith(p)] *)
Fixpoint endswith (s p : string) : bool :=
  String.eqb s p ||
  match s with
  | EmptyString => false
  | String _ s' => endswith s' p
  end.

(** [s.lstrip()], [s.rstrip()] and [s.strip()] *)
Fixpoint lstrip (s : string) : string :=
  match s with
  | EmptyString => EmptyString
  | String c s' => if Char.isspace c then lstrip s' else s
  end.

Fixpoint rstrip (s : string) : string :=
  match s with
  | EmptyString => EmptyString
  | String c s' =>
      match rstrip s' with
      | EmptyString => if Char.isspace c then EmptyString
                       else String c EmptyString
      | r => String c r
      end
  end.

Definition strip (s : string) : string := rstrip (lstrip s).

(** [s.split()]: the maximal runs of characters that are not white space,
    left to right.  [cur] is the run being read, if any. *)
Fixpoint split_go (cur : option string) (s : string) : list string :=
  match s with
  | EmptyString => match cur with Some w => [w] | None => [] end
  | String c s' =>
      if Char.isspace c
      then match cur with
           | Some w => w :: split_go None s'
           | None => split_go None s'
           end
      else split_go (Some (String.append (default EmptyString cur)
                                         (String c EmptyString))) s'
  end.

Definition split (s : string) : list string := split_go None s.

(** [sep.join(l)] *)
Definition join (sep : string) (l : list string) : string :=
  String.concat sep l.

(** [s[:n]] for [n >= 0] *)
Fixpoint take (n : nat) (s : string) : string :=
  match n, s with
  | S n', String c s' => String c (take n' s')
  | _, _ => EmptyString
  end.

(** [s.isdigit()]: not empty, and every character is a digit. *)
Definition isdigit (s : string) : bool :=
  match s with
  | EmptyString => false
  | _ => all Char.isdigit s
  end.

(** The value of a string of decimal digits, most significant first. *)
Fixpoint value_go (acc : Z) (s : string) : Z :=
  match s with
  | EmptyString => acc
  | String c s' => value_go (10 * acc + Char.digit_value c) s'
  end.

Definition value (s : string) : Z := value_go 0 s.

(** The number of positions of [s] at which [m] starts. *)
Fixpoint occurrences (m s : string) : nat :=
  (if String.prefix m s then 1 else 0)%nat +
  match s with
  | EmptyString => 0%nat
  | String _ s' => occurrences m s'
  end.

End Str.

(** ** The trust score *)

(** [quick_trust_score(word_count, issuer_count, has_dates)] *)
Definition quick_trust_score (word_count issuer_count : Z) (has_dates : bool) : Z :=
  let score := 30 in
  let score := if 50 <? word_count then score + 30 else score in
  let score := score + Z.min 30 (issuer_count * 10) in
  let score := if has_dates then score + 10 else score in
  Z.max 0 (Z.min 100 score).

(** The score as the specification words it. *)
Definition trust_score_spec (w k : Z) (d : bool) : Z :=
  let word_bonus := if Z_gt_dec w 50 then 30 else 0 in
  let issuer_bonus := Z.min 30 (10 * k) in
  let date_bonus := if d then 10 else 0 in
  let raw := 30 + word_bonus + issuer_bonus + date_bonus in
  if Z_lt_dec raw 0 then 0 else if Z_lt_dec 100 raw then 100 else raw.

(** ** Issuer keywords *)

Definition KNOWN_ISSUERS : list string :=
  [ "institute"; "university"; "college"; "certified"; "certificate";
    "issued"; "degree"; "coursera"; "edx"; "udemy"; "iit"; "mit";
    "stanford"; "google"; "microsoft" ].

(** [x or d] on an optional string: [None] and the empty string are falsy. *)
Definition str_or (x : option string) (d : string) : string :=
  match x with
  | None | Some EmptyString => d
  | Some s => s
  end.

(** [sorted(found)] on a set of strings: ascending code point order. *)
Definition sorted (found : gset string) : list string :=
  merge_sort String.le (elements found).

(** [detect_issuer_in_text(text)] *)
Definition detect_issuer_in_text (text : option string) : list string :=
  let t := Str.lower (str_or text EmptyString) in
  let found :=
    foldl (fun (found : gset string) kw =>
             if Str.contains kw t then found ∪ {[ kw ]} else found)
          ∅ KNOWN_ISSUERS in
  sorted found.

(** ** Exceptions and the handler monad *)

Record Exn := mkExn { exn_class : string; exn_str : string }.

Definition RuntimeError (msg : string) : Exn := mkExn "RuntimeError" msg.
Definition ValueError (msg : string) : Exn := mkExn "ValueError" msg.
Definition TypeError (msg : string) : Exn := mkExn "TypeError" msg.
Definition ZeroDivisionError (msg : string) : Exn :=
  mkExn "ZeroDivisionError" msg.

(** The processing steps a request can start. *)
Inductive Step :=
| StepRead | StepHash | StepExtract | StepNormalize | StepRecognize | StepScore.

Inductive Outcome (A : Type) :=
| Ret (a : A)
| Raise (e : Exn).
Arguments Ret {A} a.
Arguments Raise {A} e.

(** A computation yields a value or raises, and lists the steps it started. *)
Definition M (A : Type) : Type := Outcome A * list Step.

Definition ret {A} (a : A) : M A := (Ret a, []).
Definition raise {A} (e : Exn) : M A := (Raise e, []).
Definition tick (s : Step) : M unit := (Ret tt, [s]).

Definition bind {A B} (m : M A) (k : A -> M B) : M B :=
  match m with
  | (Ret a, l) => let '(o, l') := k a in (o, l ++ l')
  | (Raise e, l) => (Raise e, l)
  end.

(** [try: m  except Exception as e: ...], with the exception as a value. *)
Definition attempt {A} (m : M A) : M (Exn + A) :=
  match m with
  | (Ret a, l) => (Ret (inr a), l)
  | (Raise e, l) => (Ret (inl e), l)
  end.

(** A library call, as its result. *)
Definition lift {A} (r : Exn + A) : M A :=
  match r with
  | inr a => ret a
  | inl e => raise e
  end.

Global Instance M_ret : MRet M := @ret.
Global Instance M_bind : MBind M := fun A B k m => bind m k.

(** ** Date detection *)

Definition DATE_PHRASES : list string := [ "issued on"; "date of"; "on:" ].

(** [int(tok)] for a token on which [isdigit] holds: the decimal value when
    every character is a decimal digit, [ValueError] otherwise. *)
Definition int_of_digits (tok : string) : M Z :=
  if Str.all Char.isdecimal tok then ret (Str.value tok)
  else raise (ValueError
    (String.append "invalid literal for int() with base 10: '"
                   (String.append tok "'"))).

(** [tok.isdigit() and (len(tok) == 4 and 1900 <= int(tok) <= 2100)] *)
Definition is_year_token (tok : string) : M bool :=
  if Str.isdigit tok then
    if Str.len tok =? 4 then
      n ← int_of_digits tok;
      ret ((1900 <=? n) && (n <=? 2100))
    else ret false
  else ret false.

(** [any(p(tok) for tok in words)]: stops at the first token that passes. *)
Fixpoint any_m (p : string -> M bool) (words : list string) : M bool :=
  match words with
  | [] => ret false
  | tok :: rest =>
      b ← p tok;
      if (b : bool) then ret true else any_m p rest
  end.

(** [[w for w in full_text.split() if w.strip()]] *)
Definition words_of (full_text : string) : list string :=
  List.filter (fun w => negb (String.eqb (Str.strip w) EmptyString))
              (Str.split full_text).

(** The right-hand side of [has_dates = ...] *)
Definition has_dates_of (words : list string) (full_text : string) : M bool :=
  a ← any_m is_year_token words;
  if (a : bool) then ret true
  else ret (existsb (fun k => Str.contains k
                       (Str.lower (str_or (Some full_text) EmptyString)))
                    DATE_PHRASES).

(** The right-hand side of [snippet = ...] *)
Definition snippet_of (full_text : string) : string :=
  if 1000 <? Str.len full_text
  then String.append (Str.take 1000 full_text) "..."
  else full_text.

(** ** Paths ([os.path], POSIX flavour) *)

Module Path.

(** [s.split("/")] *)
Fixpoint split_sep (s : string) : list string :=
  match s with
  | EmptyString => [EmptyString]
  | String c s' =>
      if Ascii.eqb c "/" then EmptyString :: split_sep s'
      else match split_sep s' with
           | w :: ws => String c w :: ws
           | [] => [String c EmptyString]
           end
  end.

Definition isabs (p : string) : bool := Str.startswith p "/".

(** One round of the loop of [join]. *)
Definition join2 (path b : string) : string :=
  if Str.startswith b "/" then b
  else if String.eqb path EmptyString || Str.endswith path "/"
       then String.append path b
       else String.append path (String "/" b).

(** [os.path.join(a, *p)] *)
Definition join (a : string) (p : list string) : string := foldl join2 a p.

(** One round of the loop of [normpath]; [initial] is [initial_slashes]. *)
Definition norm_step (initial : nat) (new_comps : list string)
           (comp : string) : list string :=
  if String.eqb comp EmptyString || String.eqb comp "." then new_comps
  else if negb (String.eqb comp "..")
          || (Nat.eqb initial 0 && bool_decide (new_comps = []))
          || (match last new_comps with
              | Some l => String.eqb l ".."
              | None => false
              end)
  then new_comps ++ [comp]
  else removelast new_comps.

(** [os.path.normpath(path)] *)
Definition normpath (path : string) : string :=
  if String.eqb path EmptyString then "."
  else
    let initial_slashes :=
      if Str.startswith path "/" then
        if Str.startswith path "//" && negb (Str.startswith path "///")
        then 2%nat else 1%nat
      else 0%nat in
    let comps := foldl (norm_step initial_slashes) [] (split_sep path) in
    let path := Str.join "/" comps in
    let path := String.append
                  (string_of_list_ascii (replicate initial_slashes "/"%char))
                  path in
    if String.eqb path EmptyString then "." else path.

(** [os.path.abspath(path)] with the working directory [cwd] *)
Definition abspath (cwd path : string) : string :=
  normpath (if isabs path then path else join cwd [path]).

(** [head.rstrip("/")] *)
Fixpoint rstrip_sep (s : string) : string :=
  match s with
  | EmptyString => EmptyString
  | String c s' =>
      match rstrip_sep s' with
      | EmptyString => if Ascii.eqb c "/" then EmptyString
                       else String c EmptyString
      | r => String c r
      end
  end.

(** [p[:p.rfind("/") + 1]] *)
Fixpoint upto_last_sep (p : string) : string :=
  match p with
  | EmptyString => EmptyString
  | String c s' =>
      if Str.contains "/" s' || Ascii.eqb c "/"
      then String c (upto_last_sep s')
      else EmptyString
  end.

(** [os.path.dirname(p)] *)
Definition dirname (p : string) : string :=
  let head := upto_last_sep p in
  if negb (String.eqb head EmptyString)
     && negb (Str.all (Ascii.eqb "/") head)
  then rstrip_sep head else head.

(** The names a path walks through. *)
Definition components (p : string) : list string :=
  List.filter (fun c => negb (String.eqb c EmptyString)) (split_sep p).

(** [p] is [root] or lies below it. *)
Definition within (root p : string) : bool :=
  bool_decide (components root `prefix_of` components p).

(** The same for normalised paths, on the text of the path: [p] is [root]
    or goes on after [root] with a separator. *)
Definition below (root p : string) : bool :=
  String.eqb p root || Str.startswith p (String.append root "/").

End Path.

(** ** The static file route *)

(** What the module reads from its host: its own location, the working
    directory and the file system. *)
Record Host := mkHost {
  module_file : string;              (* [__file__] *)
  getcwd : string;
  isdir : string -> bool;
  exists_path : string -> bool
}.

Definition BACKEND_DIR (h : Host) : string :=
  Path.dirname (Path.abspath (getcwd h) (module_file h)).

Definition FRONTEND_DIR (h : Host) : string :=
  let d := Path.normpath (Path.join (BACKEND_DIR h) [ ".."; "frontend" ]) in
  if isdir h d then d else BACKEND_DIR h.

Inductive StaticResponse :=
| send_file (path : string)
| abort (code : Z).

(** [serve_frontend_file(filename)] *)
Definition serve_frontend_file (h : Host) (filename : string) : StaticResponse :=
  let safe_path := Path.normpath (Path.join (FRONTEND_DIR h) [filename]) in
  if negb (Str.startswith safe_path (Path.abspath (getcwd h) (FRONTEND_DIR h)))
  then abort 403
  else if exists_path h safe_path then send_file safe_path
  else abort 404.

(** A host with the backend at [/srv/app/backend/app.py], a front end beside
    it and an unrelated directory [/srv/app/frontend_old]. *)
Definition example_host : Host :=
  {| module_file := "/srv/app/backend/app.py";
     getcwd := "/srv/app/backend";
     isdir := fun p => bool_decide (p ∈ [ "/srv/app/frontend";
                                          "/srv/app/frontend_old";
                                          "/srv/app/backend" ]);
     exists_path := fun p => bool_decide (p ∈ [ "/srv/app/frontend";
                                                "/srv/app/frontend/index.html";
                                                "/srv/app/frontend_old";
                                                "/srv/app/frontend_old/keys.txt" ]) |}.

(** ** The OCR route *)

Global Instance byte_eq_decision : EqDecision byte := Byte.byte_eq_dec.

Definition PDF_MAGIC : list byte := [ x25; x50; x44; x46 ].   (* b"%PDF" *)
Definition PAGE_SEPARATOR : string :=
  String "010" (String "010" (String.append "---PAGE---"
    (String "010" (String "010" EmptyString)))).
Definition PAGE_MARKER : string := "---PAGE---".
Definition NEWLINE : string := String "010" EmptyString.
Definition MIN_DIM : Z := 1200.

(** An uploaded part: werkzeug's [FileStorage]. *)
Record FileStorage := mkFile {
  filename : option string;
  stream : list byte
}.

(** [request.files]: the parts of the form, in order, by field name. *)
Record Request := mkRequest { files : list (string * FileStorage) }.

(** [request.files[name]] (the first part of that name), [None] when
    [name not in request.files]. *)
Fixpoint files_get (name : string) (l : list (string * FileStorage))
  : option FileStorage :=
  match l with
  | [] => None
  | (k, f) :: rest => if String.eqb k name then Some f else files_get name rest
  end.

(** The right-hand side of [is_pdf = ...] *)
Definition is_pdf (filename : string) (raw : list byte) : bool :=
  Str.endswith (Str.lower filename) ".pdf"
  || bool_decide (take 4 raw = PDF_MAGIC).

Record ErrorBody := mkError {
  error : string;
  message : option string;
  details : option string;
  trace : option string
}.

Section Backend.

(** Bitmaps and the numbers the OCR engine reports are the libraries'. *)
Variables Image Num : Type.

(** A Python value inside a detection. *)
Inductive PyVal :=
| VStr (s : string)
| VNum (x : Num)
| VOther.

(** One detection of [reader.readtext]: a tuple. *)
Definition Detection := list PyVal.

(** The module's globals and the library calls it makes. *)
Record Env := mkEnv {
  EASYOCR_OK : bool;
  reader : option (Image -> Exn + list Detection);  (* [reader.readtext] *)
  PDF2IMAGE_OK : bool;
  convert_from_bytes : list byte -> Z -> Exn + list Image;
  image_open : list byte -> Exn + Image;   (* [Image.open(io.BytesIO(b))] *)
  convert : Image -> string -> Image;
  size : Image -> Z * Z;
  resize : Image -> Z * Z -> Image;
  autocontrast : Image -> Image;
  sha256_hexdigest : list byte -> string;
  format_exc : Exn -> string;
  mean : list Num -> Num                   (* [sum(l) / len(l)] *)
}.

Record VerificationResult := mkResult {
  file_name : string;
  file_hash : string;
  page_count : Z;
  full_text : string;
  extracted_text_snippet : string;
  word_count : Z;
  detected_issuers : list string;
  has_dates : bool;
  avg_ocr_confidence : option Num;
  trust_score : Z
}.

Inductive Body :=
| ErrorJson (e : ErrorBody)
| ResultJson (v : VerificationResult).

Record Response := mkResponse { body : Body; status : Z }.

Variable E : Env.

Definition sha256_bytes (b : list byte) : M string :=
  tick StepHash;; ret (sha256_hexdigest E b).

(** [pil_from_bytes(b)] *)
Definition pil_from_bytes (b : list byte) : M Image :=
  tick StepExtract;;
  img ← lift (image_open E b);
  ret (convert E img "RGB").

(** [preprocess_for_ocr(pil_img, min_dim)] *)
Definition preprocess_for_ocr (pil_img : Image) (min_dim : Z) : M Image :=
  tick StepNormalize;;
  let img := convert E pil_img "L" in
  let '(w, h) := size E img in
  img ← (if Z.max w h <? min_dim then
           if Z.max w h =? 0
           then raise (ZeroDivisionError "division by zero")
           else
             let scale := Z.quot min_dim (Z.max w h) + 1 in
             ret (resize E img (w * scale, h * scale))
         else ret img);
  ret (autocontrast E img).

(** [r[1]] of every detection with [len(r) >= 2] *)
Definition detection_texts (results : list Detection) : list PyVal :=
  omap (fun r => match r with _ :: t :: _ => Some t | _ => None end) results.

(** [r[2]] of every detection with [len(r) >= 3] whose [r[2]] is a number *)
Definition detection_confs (results : list Detection) : list Num :=
  omap (fun r => match r with _ :: _ :: VNum c :: _ => Some c | _ => None end)
       results.

(** ["\n".join(texts)]: every item has to be a [str]. *)
Fixpoint strings_of (texts : list PyVal) : M (list string) :=
  match texts with
  | [] => ret []
  | VStr s :: rest => l ← strings_of rest; ret (s :: l)
  | _ :: _ => raise (TypeError "sequence item: expected str instance")
  end.

(** [ocr_easyocr_pil(pil_img)] *)
Definition ocr_easyocr_pil (pil_img : Image)
  : M (string * option Num * list Detection) :=
  tick StepRecognize;;
  match EASYOCR_OK E, reader E with
  | true, Some readtext =>
      let arr := convert E pil_img "RGB" in
      results ← lift (readtext arr);
      let texts := detection_texts results in
      let confs := detection_confs results in
      strs ← strings_of texts;
      let full_text := Str.join NEWLINE strs in
      let avg_conf := match confs with
                      | [] => None
                      | _ => Some (mean E confs)
                      end in
      ret (full_text, avg_conf, results)
  | _, _ =>
      raise (RuntimeError "EasyOCR not installed or failed to initialize.")
  end.

(** [convert_pdf_bytes_to_pil_list(pdf_bytes, dpi)] *)
Definition convert_pdf_bytes_to_pil_list (pdf_bytes : list byte) (dpi : Z)
  : M (list Image) :=
  tick StepExtract;;
  if negb (PDF2IMAGE_OK E)
  then raise (RuntimeError
    "pdf2image is not installed. Install pdf2image and poppler to enable PDF uploads.")
  else lift (convert_from_bytes E pdf_bytes dpi).

(** The locals [texts], [confidences] and [page_count] of [api_verify]. *)
Record Pages := mkPages {
  texts : list string;
  confidences : list Num;
  pages_seen : Z
}.

(** [for p in pages: ...] *)
Fixpoint pdf_loop (pages : list Image) (st : Pages) : M Pages :=
  match pages with
  | [] => ret st
  | p :: rest =>
      let page_count := pages_seen st + 1 in
      pre ← preprocess_for_ocr p MIN_DIM;
      r ← attempt (ocr_easyocr_pil pre);
      pdf_loop rest
        match r with
        | inr (txt, conf, _) =>
            mkPages (texts st ++ [txt])
                    (match conf with
                     | Some c => confidences st ++ [c]
                     | None => confidences st
                     end)
                    page_count
        | inl _ => mkPages (texts st ++ [EmptyString]) (confidences st)
                           page_count
        end
  end.

Definition jsonify_error (code : string) (msg det tr : option string)
           (st : Z) : Response :=
  mkResponse (ErrorJson (mkError code msg det tr)) st.

(** Where a branch of the handler leaves: a [return], or the end of the
    branch with the locals it has set. *)
Inductive Flow :=
| Return (r : Response)
| Continue (st : Pages).

(** Lines 150-188 of [api_verify]: the locals are initialised and the
    pages of the upload are read, a PDF page by page, an image as one. *)
Definition collect_pages (filename : string) (raw : list byte) : M Flow :=
  let st := mkPages [] [] 0 in
  if is_pdf filename raw then
    if negb (PDF2IMAGE_OK E) then
      ret (Return (jsonify_error "pdf_uploaded_but_pdf2image_missing"
             (Some "Install pdf2image and poppler to enable PDF support.")
             None None 400))
    else
      r ← attempt (convert_pdf_bytes_to_pil_list raw 200);
      match r with
      | inl e =>
          ret (Return (jsonify_error "pdf_conversion_failed" None
                 (Some (exn_str e)) (Some (format_exc E e)) 500))
      | inr pages => st ← pdf_loop pages st; ret (Continue st)
      end
  else
    r ← attempt (pil_from_bytes raw);
    match r with
    | inl e =>
        ret (Return (jsonify_error "cannot_read_image" None
               (Some (exn_str e)) None 400))
    | inr pil =>
        pre ← preprocess_for_ocr pil MIN_DIM;
        r ← attempt (ocr_easyocr_pil pre);
        match r with
        | inr (txt, conf, _) =>
            ret (Continue
                   (mkPages (texts st ++ [txt])
                            (match conf with
                             | Some c => confidences st ++ [c]
                             | None => confidences st
                             end)
                            1))
        | inl e =>
            ret (Return (jsonify_error "ocr_failed" None
                   (Some (exn_str e)) (Some (format_exc E e)) 500))
        end
    end.

(** Lines 190-210 of [api_verify]: the text is joined and scored and the
    result is assembled. *)
Definition verdict (filename file_hash : string) (st : Pages) : M Response :=
  tick StepScore;;
  let full_text := Str.strip (Str.join PAGE_SEPARATOR (texts st)) in
  let snippet := snippet_of full_text in
  let words := words_of full_text in
  let word_count := Z.of_nat (length words) in
  let issuers := detect_issuer_in_text (Some full_text) in
  has_dates ← has_dates_of words full_text;
  let avg_conf := match confidences st with
                  | [] => None
                  | c => Some (mean E c)
                  end in
  let trust := quick_trust_score word_count
                 (Z.of_nat (length issuers)) has_dates in
  ret (mkResponse
         (ResultJson
            (mkResult filename file_hash (pages_seen st) full_text
                      snippet word_count issuers has_dates avg_conf trust))
         200).

(** The body of the outer [try] of [api_verify]. *)
Definition api_verify_try (request : Request) : M Response :=
  match files_get "file" (files request) with
  | None =>
      ret (jsonify_error "no file part named 'file' in request"
                         None None None 400)
  | Some f =>
      let filename := str_or (filename f) "upload" in
      raw ← (tick StepRead;; ret (stream f));
      file_hash ← sha256_bytes raw;
      flow ← collect_pages filename raw;
      match flow with
      | Return r => ret r
      | Continue st => verdict filename file_hash st
      end
  end.

(** [api_verify()]: the response, and the processing steps it started. *)
Definition api_verify (request : Request) : Response * list Step :=
  match api_verify_try request with
  | (Ret r, l) => (r, l)
  | (Raise e, l) =>
      (jsonify_error "internal_server_error" None (Some (exn_str e))
                     (Some (format_exc E e)) 500, l)
  end.

End Backend.

Arguments api_verify {Image Num} E request.
Arguments api_verify_try {Image Num} E request.
Arguments collect_pages {Image Num} E filename raw.
Arguments verdict {Image Num} E filename file_hash st.
Arguments pdf_loop {Image Num} E pages st.
Arguments ocr_easyocr_pil {Image Num} E pil_img.
Arguments preprocess_for_ocr {Image Num} E pil_img min_dim.
Arguments pil_from_bytes {Image Num} E b.
Arguments sha256_bytes {Image Num} E b.
Arguments convert_pdf_bytes_to_pil_list {Image Num} E pdf_bytes dpi.
Arguments detection_texts {Num} results.
Arguments detection_confs {Num} results.
Arguments strings_of {Num} texts.
Arguments jsonify_error {Num} code msg det tr st.
Arguments EASYOCR_OK {Image Num} e.
Arguments reader {Image Num} e.
Arguments PDF2IMAGE_OK {Image Num} e.
Arguments convert_from_bytes {Image Num} e.
Arguments image_open {Image Num} e.
Arguments convert {Image Num} e.
Arguments size {Image Num} e.
Arguments resize {Image Num} e.
Arguments autocontrast {Image Num} e.
Arguments sha256_hexdigest {Image Num} e.
Arguments format_exc {Image Num} e.
Arguments mean {Image Num} e.
Arguments texts {Num} p.
Arguments confidences {Num} p.
Arguments pages_seen {Num} p.
Arguments file_name {Num} v.
Arguments file_hash {Num} v.
Arguments page_count {Num} v.
Arguments full_text {Num} v.
Arguments extracted_text_snippet {Num} v.
Arguments word_count {Num} v.
Arguments detected_issuers {Num} v.
Arguments has_dates {Num} v.
Arguments avg_ocr_confidence {Num} v.
Arguments trust_score {Num} v.
Arguments body {Num} r.
Arguments status {Num} r.
Arguments VStr {Num} s.
Arguments VNum {Num} x.
Arguments VOther {Num}.
Arguments Return {Num} r.
Arguments Continue {Num} st.
Arguments ErrorJson {Num} e.
Arguments ResultJson {Num} v.
Arguments mkResponse {Num} body status.
Arguments mkResult {Num}.
Arguments mkPages {Num}.

(** ** An example deployment

    Bitmaps carry their size and the lines printed on them ([None] for a page
    the engine chokes on); the engine reports every line with confidence 90
    and [mean] is the integer mean. *)

Record Bitmap := mkBitmap {
  bm_width : Z;
  bm_height : Z;
  bm_lines : option (list string)
}.

Definition example_readtext (img : Bitmap) : Exn + list (Detection Z) :=
  match bm_lines img with
  | Some ls => inr (map (fun s => [VOther; VStr s; VNum 90]) ls)
  | None => inl (RuntimeError "unreadable page")
  end.

(** The deployment is given what the PDF rasteriser returns for an upload
    and what the image decoder returns for it. *)
Definition example_env (pdf_pages : list Bitmap) (image : option Bitmap)
  : Env Bitmap Z :=
  {| EASYOCR_OK := true;
     reader := Some example_readtext;
     PDF2IMAGE_OK := true;
     convert_from_bytes := fun _ _ => inr pdf_pages;
     image_open := fun _ =>
       match image with
       | Some i => inr i
       | None => inl (mkExn "UnidentifiedImageError" "cannot identify image file")
       end;
     convert := fun i _ => i;
     size := fun i => (bm_width i, bm_height i);
     resize := fun i '(w, h) => mkBitmap w h (bm_lines i);
     autocontrast := fun i => i;
     sha256_hexdigest := fun _ => "e3b0c442";
     format_exc := fun e => String.append "Traceback: " (exn_str e);
     mean := fun l => foldr Z.add 0 l / Z.of_nat (length l) |}.

Definition page (ls : list string) : Bitmap := mkBitmap 800 600 (Some ls).
Definition bad_page : Bitmap := mkBitmap 800 600 None.

Definition upload (name : option string) (raw : list byte) : Request :=
  mkRequest [ ("file", mkFile name raw) ].

Definition PNG_BYTES : list byte := [ x89; x50; x4e; x47 ].


(** ** The specification's vocabulary *)

(** A token that reads as a year: decimal digits only, four of them, and a
    value from 1900 to 2100. *)
Definition year_token (tok : string) : bool :=
  Str.all Char.isdecimal tok && Nat.eqb (String.length tok) 4
  && (1900 <=? Str.value tok) && (Str.value tok <=? 2100).

(** Date presence as the specification words it. *)
Definition date_spec (full_text : string) : bool :=
  existsb year_token (Str.split full_text)
  || existsb (fun k => Str.contains k (Str.lower full_text)) DATE_PHRASES.

(** A token on which [isdigit] holds, of four characters, that [int]
    rejects. *)
Definition odd_digit_token (tok : string) : bool :=
  Str.isdigit tok && (Str.len tok =? 4) && negb (Str.all Char.isdecimal tok).

(** [kw] occurs in [text] when case is ignored. *)
Definition occurs_ignoring_case (kw text : string) : Prop :=
  exists a u b, text = String.append a (String.append u b)
                /\ Str.lower u = Str.lower kw.

(** What one page of a PDF adds to [texts]. *)
Definition page_text {Image Num} (E : Env Image Num) (p : Image) : string :=
  match fst (pre ← preprocess_for_ocr E p MIN_DIM; ocr_easyocr_pil E pre) with
  | Ret (txt, _, _) => txt
  | Raise _ => EmptyString
  end.

(** What the body of the page loop does to the locals for one page. *)
Definition page_step {Image Num} (E : Env Image Num) (st : Pages Num)
           (p : Image) : Pages Num :=
  match fst (pre ← preprocess_for_ocr E p MIN_DIM; ocr_easyocr_pil E pre) with
  | Ret (txt, conf, _) =>
      mkPages (texts st ++ [txt])
              (match conf with
               | Some c => confidences st ++ [c]
               | None => confidences st
               end)
              (pages_seen st + 1)
  | Raise _ => mkPages (texts st ++ [EmptyString]) (confidences st)
                       (pages_seen st + 1)
  end.

(** The result [api_verify] assembles from its locals once the date flag is
    known. *)
Definition result_of {Image Num} (E : Env Image Num)
           (filename file_hash : string) (st : Pages Num) (has_dates : bool)
  : VerificationResult Num :=
  let full_text := Str.strip (Str.join PAGE_SEPARATOR (texts st)) in
  let words := words_of full_text in
  let issuers := detect_issuer_in_text (Some full_text) in
  mkResult filename file_hash (pages_seen st) full_text (snippet_of full_text)
           (Z.of_nat (length words)) issuers has_dates
           (match confidences st with
            | [] => None
            | c => Some (mean E c)
            end)
           (quick_trust_score (Z.of_nat (length words))
                              (Z.of_nat (length issuers)) has_dates).

(** The response to an exception that reaches the outer [except]. *)
Definition internal_server_error {Image Num} (E : Env Image Num) (e : Exn)
  : Response Num :=
  jsonify_error "internal_server_error" None (Some (exn_str e))
                (Some (format_exc E e)) 500.

(** Normalising the page raises nothing. *)
Definition normalizes {Image Num} (E : Env Image Num) (p : Image) : Prop :=
  exists pre, fst (preprocess_for_ocr E p MIN_DIM) = Ret pre.

(** Recognition of the normalised page raises. *)
Definition recognition_fails {Image Num} (E : Env Image Num) (p : Image) : Prop :=
  exists pre e, fst (preprocess_for_ocr E p MIN_DIM) = Ret pre
                /\ fst (ocr_easyocr_pil E pre) = Raise e.

(** The superscript two, U+00B2: a digit for [isdigit], not for [int]. *)
Definition SUPERSCRIPT_TWO : ascii := ascii_of_N 178.

(** Four superscript twos. *)
Definition ODD_YEAR : string :=
  String SUPERSCRIPT_TWO (String SUPERSCRIPT_TWO
    (String SUPERSCRIPT_TWO (String SUPERSCRIPT_TWO EmptyString))).

(** A character of the ASCII range. *)
Definition isascii (c : ascii) : bool := (Char.code c <? 128)%N.



(** The words of the pages, with one marker between two pages. *)
Definition words_of_pages (txts : list string) : list string :=
  match txts with
  | [] => []
  | t :: ts =>
      Str.split t ++ flat_map (fun t' => PAGE_MARKER :: Str.split t') ts
  end.

(** A character of the lower-cased page separator. *)
Definition marker_char (c : ascii) : bool :=
  Str.contains (String c EmptyString) (Str.lower PAGE_SEPARATOR).

(** The message of [ocr_easyocr_pil] when the engine is not there. *)
Definition ENGINE_MISSING : string :=
  "EasyOCR not installed or failed to initialize.".

(** The example deployment with the OCR engine missing. *)
Definition offline_env (pdf_pages : list Bitmap) (image : option Bitmap)
  : Env Bitmap Z :=
  let E := example_env pdf_pages image in
  mkEnv Bitmap Z false None (PDF2IMAGE_OK E) (convert_from_bytes E)
        (image_open E) (convert E) (size E) (resize E) (autocontrast E)
        (sha256_hexdigest E) (format_exc E) (mean E).

(** A deployment with another image decoder. *)
Definition with_decoder {Image Num} (E : Env Image Num)
           (decoder : list byte -> Exn + Image) : Env Image Num :=
  mkEnv Image Num (EASYOCR_OK E) (reader E) (PDF2IMAGE_OK E)
        (convert_from_bytes E) decoder (convert E) (size E) (resize E)
        (autocontrast E) (sha256_hexdigest E) (format_exc E) (mean E).

(** A deployment with another PDF rasteriser, present or not. *)
Definition with_rasteriser {Image Num} (E : Env Image Num) (present : bool)
           (rasteriser : list byte -> Z -> Exn + list Image) : Env Image Num :=
  mkEnv Image Num (EASYOCR_OK E) (reader E) present rasteriser
        (image_open E) (convert E) (size E) (resize E) (autocontrast E)
        (sha256_hexdigest E) (format_exc E) (mean E).

(** The error codes of the two kinds of failure answers. *)
Definition CLIENT_ERRORS : list string :=
  [ "no file part named 'file' in request";
    "pdf_uploaded_but_pdf2image_missing"; "cannot_read_image" ].

Definition SERVER_ERRORS : list string :=
  [ "pdf_conversion_failed"; "ocr_failed"; "internal_server_error" ].

(** A detection as the engine documents it: a box, a text and a number. *)
Definition triple {Num} (d : string * Num) : Detection Num :=
  [ VOther; VStr (fst d); VNum (snd d) ].

(** ** The landing page route *)





(** * Proofs *)

(** ** The trust score *)

Section TrustScore.

Variables (w k : Z) (d : bool).

Lemma quick_trust_score_unfold :
  quick_trust_score w k d =
  Z.max 0 (Z.min 100 (30 + (if 50 <? w then 30 else 0)
                         + Z.min 30 (k * 10) + (if d then 10 else 0))).
Proof.
  unfold quick_trust_score. destruct (50 <? w), d; f_equal; f_equal; lia.
Qed.

Lemma quick_trust_score_range : 0 <= quick_trust_score w k d <= 100.
Proof. rewrite quick_trust_score_unfold. lia. Qed.

End TrustScore.

(** ** Strings *)

Section StringFacts.

Implicit Types (s t m : string) (c : ascii).

Lemma append_nil s : String.append EmptyString s = s.
Proof. reflexivity. Qed.

Lemma append_cons c s t :
  String.append (String c s) t = String c (String.append s t).
Proof. reflexivity. Qed.

Lemma length_append s t :
  String.length (String.append s t) = (String.length s + String.length t)%nat.
Proof.
  induction s as [|c s IH]; [done|].
  rewrite append_cons. simpl. by rewrite IH.
Qed.

Lemma append_empty_r s : String.append s EmptyString = s.
Proof.
  induction s as [|c s IH]; [done|]. by rewrite append_cons, IH.
Qed.

Lemma append_assoc s t m :
  String.append (String.append s t) m = String.append s (String.append t m).
Proof.
  induction s as [|c s IH]; [done|]. by rewrite !append_cons, IH.
Qed.

Lemma length_take n s :
  String.length (Str.take n s) = Nat.min n (String.length s).
Proof.
  revert s; induction n as [|n IH]; intros [|c s]; simpl; try done.
  by rewrite IH.
Qed.

Lemma take_all n s : (String.length s <= n)%nat -> Str.take n s = s.
Proof.
  revert s; induction n as [|n IH]; intros [|c s]; simpl; try done; try lia.
  intros ?. rewrite IH; [done|lia].
Qed.


Lemma prefix_empty_r m : String.prefix m EmptyString = true -> m = EmptyString.
Proof. by destruct m. Qed.

Lemma prefix_cons c m d s :
  String.prefix (String c m) (String d s)
  = bool_decide (c = d) && String.prefix m s.
Proof.
  simpl. destruct (ascii_dec c d) as [->|Hne].
  - by rewrite bool_decide_eq_true_2.
  - by rewrite bool_decide_eq_false_2.
Qed.

Lemma prefix_append m s : String.prefix m (String.append m s) = true.
Proof.
  induction m as [|c m IH]; [by destruct s|].
  rewrite append_cons, prefix_cons, IH. by rewrite bool_decide_eq_true_2.
Qed.

Lemma prefix_split m s :
  String.prefix m s = true -> exists r, s = String.append m r.
Proof.
  revert s; induction m as [|c m IH]; intros s H.
  - by exists s.
  - destruct s as [|d s]; [done|].
    rewrite prefix_cons in H. apply andb_true_iff in H as [Hc Hm].
    apply bool_decide_eq_true in Hc as ->.
    destruct (IH _ Hm) as [r ->]. by exists r.
Qed.

Lemma contains_cons kw c s :
  Str.contains kw (String c s)
  = String.prefix kw (String c s) || Str.contains kw s.
Proof. reflexivity. Qed.

Lemma contains_empty kw :
  Str.contains kw EmptyString = String.prefix kw EmptyString.
Proof. simpl. by rewrite orb_false_r. Qed.

Lemma contains_prefix kw s :
  String.prefix kw s = true -> Str.contains kw s = true.
Proof.
  destruct s; [by rewrite contains_empty|].
  rewrite contains_cons. by intros ->.
Qed.

(** [kw in s] holds exactly when [s] is some text, [kw], and some text. *)
Lemma contains_spec kw s :
  Str.contains kw s = true
  <-> exists a b, s = String.append a (String.append kw b).
Proof.
  split.
  - induction s as [|c s IH]; intros H.
    + rewrite contains_empty in H. apply prefix_split in H as [r ->].
      by exists EmptyString, r.
    + rewrite contains_cons in H. apply orb_true_iff in H as [H|H].
      * apply prefix_split in H as [r Hr]. by exists EmptyString, r.
      * destruct (IH H) as (a & b & ->). by exists (String c a), b.
  - intros (a & b & ->). induction a as [|c a IH].
    + rewrite append_nil. apply contains_prefix, prefix_append.
    + rewrite append_cons, contains_cons, IH. apply orb_true_r.
Qed.

End StringFacts.

(** ** The handler monad *)

Section MonadFacts.

Context {A B : Type}.
Implicit Types (m : M A) (k : A -> M B).

Lemma bind_Ret m k a l :
  m = (Ret a, l) -> m ≫= k = (fst (k a), l ++ snd (k a)).
Proof. intros ->. unfold mbind, M_bind, bind. by destruct (k a). Qed.

Lemma bind_Raise m k e l : m = (Raise e, l) -> m ≫= k = (Raise e, l).
Proof. by intros ->. Qed.

Lemma bind_Ret_inv m k b l :
  m ≫= k = (Ret b, l) ->
  exists a l1 l2, m = (Ret a, l1) /\ k a = (Ret b, l2) /\ l = l1 ++ l2.
Proof.
  destruct m as [[a|e] l1]; unfold mbind, M_bind, bind; [|done].
  destruct (k a) as [o l2] eqn:Hk. intros [= -> <-]. by exists a, l1, l2.
Qed.

Lemma fst_bind m k :
  fst (m ≫= k) = match fst m with
                 | Ret a => fst (k a)
                 | Raise e => Raise e
                 end.
Proof.
  destruct m as [[a|e] l1]; unfold mbind, M_bind, bind; [|done].
  destruct (k a) eqn:Hk; simpl. by rewrite Hk.
Qed.

Lemma attempt_Ret m : exists r l, attempt m = (Ret r, l).
Proof. destruct m as [[a|e] l]; simpl; eauto. Qed.

Lemma fst_attempt m :
  fst (attempt m) = Ret match fst m with
                        | Ret a => inr a
                        | Raise e => inl e
                        end.
Proof. by destruct m as [[a|e] l]. Qed.

End MonadFacts.

(** ** Date detection never records a step *)

Lemma any_m_fst (p : string -> M bool) (ws : list string) :
  fst (any_m p ws)
  = match ws with
    | [] => Ret false
    | tok :: rest =>
        match fst (p tok) with
        | Ret true => Ret true
        | Ret false => fst (any_m p rest)
        | Raise e => Raise e
        end
    end.
Proof.
  destruct ws as [|tok rest]; [done|]. simpl. rewrite fst_bind.
  destruct (fst (p tok)) as [[|]|e]; done.
Qed.

Lemma is_year_token_log (tok : string) : snd (is_year_token tok) = [].
Proof.
  unfold is_year_token, int_of_digits.
  destruct (Str.isdigit tok), (Str.len tok =? 4),
    (Str.all Char.isdecimal tok); reflexivity.
Qed.

Lemma any_m_year_log (ws : list string) : snd (any_m is_year_token ws) = [].
Proof.
  induction ws as [|tok rest IH]; [done|]. simpl.
  pose proof (is_year_token_log tok) as Hl.
  destruct (is_year_token tok) as [[[|]|e] l]; simpl in *; subst l; try done.
  unfold mbind, M_bind, bind.
  destruct (any_m is_year_token rest) as [o l']; simpl in *. by subst l'.
Qed.

Lemma has_dates_of_log (ws : list string) (t : string) :
  snd (has_dates_of ws t) = [].
Proof.
  unfold has_dates_of. pose proof (any_m_year_log ws) as Hl.
  destruct (any_m is_year_token ws) as [[[|]|e] l]; simpl in *; by subst l.
Qed.

Lemma has_dates_of_eq (ws : list string) (t : string) :
  has_dates_of ws t = (fst (has_dates_of ws t), []).
Proof. rewrite <-(has_dates_of_log ws t). apply surjective_pairing. Qed.

(** ** The OCR route, step by step *)

Section HandlerFacts.

Context {Image Num : Type} (E : Env Image Num).
Implicit Types (p : Image) (pages : list Image) (st : Pages Num).

Lemma preprocess_for_ocr_eq p d :
  preprocess_for_ocr E p d = (fst (preprocess_for_ocr E p d), [StepNormalize]).
Proof.
  unfold preprocess_for_ocr.
  destruct (size E (convert E p "L")) as [w h].
  destruct (Z.max w h <? d), (Z.max w h =? 0); reflexivity.
Qed.

Lemma page_step_texts st p :
  texts (page_step E st p) = texts st ++ [page_text E p].
Proof.
  unfold page_step, page_text.
  destruct (fst _) as [[[txt conf] meta]|e]; reflexivity.
Qed.

Lemma page_step_seen st p : pages_seen (page_step E st p) = pages_seen st + 1.
Proof.
  unfold page_step. destruct (fst _) as [[[txt conf] meta]|e]; reflexivity.
Qed.

Lemma pdf_loop_cons p pages st pre :
  fst (preprocess_for_ocr E p MIN_DIM) = Ret pre ->
  exists l, pdf_loop E (p :: pages) st
            = (fst (pdf_loop E pages (page_step E st p)),
               l ++ snd (pdf_loop E pages (page_step E st p))).
Proof.
  intros Hpre. simpl. unfold page_step. rewrite fst_bind, Hpre.
  rewrite (preprocess_for_ocr_eq p MIN_DIM), Hpre.
  unfold mbind, M_bind, bind.
  destruct (ocr_easyocr_pil E pre) as [[[[txt conf] meta]|e] l2]; simpl;
    exists (StepNormalize :: l2);
    match goal with |- context [pdf_loop E pages ?s] =>
      destruct (pdf_loop E pages s) as [o l3] end; reflexivity.
Qed.

Lemma pdf_loop_cons_raise p pages st e :
  fst (preprocess_for_ocr E p MIN_DIM) = Raise e ->
  pdf_loop E (p :: pages) st = (Raise e, [StepNormalize]).
Proof.
  intros Hpre. simpl. rewrite (preprocess_for_ocr_eq p MIN_DIM), Hpre.
  reflexivity.
Qed.

(** When every page normalises the loop ends with one text per page. *)
Lemma pdf_loop_normalizes pages st :
  Forall (normalizes E) pages ->
  exists confs l,
    pdf_loop E pages st
    = (Ret (mkPages (texts st ++ map (page_text E) pages) confs
                    (pages_seen st + Z.of_nat (length pages))), l).
Proof.
  intros Hn. revert st. induction Hn as [|p pages [pre Hpre] _ IH]; intros st.
  - exists (confidences st), []. simpl. unfold ret.
    rewrite app_nil_r, Z.add_0_r. by destruct st.
  - destruct (pdf_loop_cons p pages st pre Hpre) as [l ->].
    destruct (IH (page_step E st p)) as (confs & l' & ->).
    exists confs, (l ++ l'). simpl.
    rewrite page_step_texts, page_step_seen, <-app_assoc. simpl.
    do 3 f_equal. lia.
Qed.

(** When the loop ends, it has one text per page. *)
Lemma pdf_loop_inv pages st st' l :
  pdf_loop E pages st = (Ret st', l) ->
  texts st' = texts st ++ map (page_text E) pages
  /\ pages_seen st' = pages_seen st + Z.of_nat (length pages)
  /\ Forall (normalizes E) pages.
Proof.
  revert st l. induction pages as [|p pages IH]; intros st l H.
  - simpl in H. injection H as <- <-. rewrite app_nil_r. simpl.
    split; [done|split; [lia|constructor]].
  - destruct (fst (preprocess_for_ocr E p MIN_DIM)) as [pre|e] eqn:Hpre.
    + destruct (pdf_loop_cons p pages st pre Hpre) as [l1 Heq].
      rewrite Heq in H. injection H as H1 H2.
      destruct (pdf_loop E pages (page_step E st p)) as [o l2] eqn:Hloop.
      simpl in H1. subst o.
      destruct (IH _ _ Hloop) as (Ht & Hs & Hn).
      rewrite Ht, Hs, page_step_texts, page_step_seen, <-app_assoc.
      split; [done|]. split; [simpl length; lia|].
      constructor; [by exists pre|done].
    + by rewrite (pdf_loop_cons_raise p pages st e Hpre) in H.
Qed.

Lemma verdict_eq fn fh st :
  let ft := Str.strip (Str.join PAGE_SEPARATOR (texts st)) in
  verdict E fn fh st
  = (match fst (has_dates_of (words_of ft) ft) with
     | Ret d => Ret (mkResponse (ResultJson (result_of E fn fh st d)) 200)
     | Raise e => Raise e
     end, [StepScore]).
Proof.
  intros ft. unfold verdict. fold ft.
  rewrite (has_dates_of_eq (words_of ft) ft).
  destruct (fst (has_dates_of (words_of ft) ft)) as [d|e]; reflexivity.
Qed.

Lemma collect_pages_pdf fn raw pages :
  is_pdf fn raw = true -> PDF2IMAGE_OK E = true ->
  convert_from_bytes E raw 200 = inr pages ->
  collect_pages E fn raw
  = (match fst (pdf_loop E pages (mkPages [] [] 0)) with
     | Ret st => Ret (Continue st)
     | Raise e => Raise e
     end, StepExtract :: snd (pdf_loop E pages (mkPages [] [] 0))).
Proof.
  intros Hpdf Hok Hconv. unfold collect_pages, convert_pdf_bytes_to_pil_list.
  rewrite Hpdf, Hok, Hconv. simpl.
  unfold mbind, M_bind, bind. simpl.
  destruct (pdf_loop E pages (mkPages [] [] 0)) as [[st|e] l]; simpl;
    by rewrite ?app_nil_r.
Qed.

Lemma collect_pages_image fn raw img :
  is_pdf fn raw = false -> image_open E raw = inr img ->
  collect_pages E fn raw
  = match fst (preprocess_for_ocr E (convert E img "RGB") MIN_DIM) with
    | Raise e => (Raise e, [StepExtract; StepNormalize])
    | Ret pre =>
        (Ret match fst (ocr_easyocr_pil E pre) with
             | Ret (txt, conf, _) =>
                 Continue (mkPages [txt]
                                   (match conf with
                                    | Some c => [c]
                                    | None => []
                                    end) 1)
             | Raise e =>
                 Return (jsonify_error "ocr_failed" None (Some (exn_str e))
                                       (Some (format_exc E e)) 500)
             end,
         StepExtract :: StepNormalize :: snd (ocr_easyocr_pil E pre))
    end.
Proof.
  intros Hpdf Himg. unfold collect_pages, pil_from_bytes.
  rewrite Hpdf, Himg. simpl. unfold mbind, M_bind, bind. simpl.
  rewrite (preprocess_for_ocr_eq (convert E img "RGB") MIN_DIM).
  destruct (fst (preprocess_for_ocr E (convert E img "RGB") MIN_DIM))
    as [pre|e]; cbn [fst]; [|done].
  destruct (ocr_easyocr_pil E pre) as [[[[txt conf] meta]|e] l]; simpl;
    rewrite ?app_nil_r; [destruct conf|]; reflexivity.
Qed.

(** The branches that leave the handler early all answer with an error. *)
Lemma collect_pages_Return fn raw r l :
  collect_pages E fn raw = (Ret (Return r), l) ->
  exists e s, r = mkResponse (ErrorJson e) s.
Proof.
  destruct (is_pdf fn raw) eqn:Hpdf.
  - destruct (PDF2IMAGE_OK E) eqn:Hok.
    + destruct (convert_from_bytes E raw 200) as [e|pages] eqn:Hconv.
      * unfold collect_pages, convert_pdf_bytes_to_pil_list.
        rewrite Hpdf, Hok, Hconv. simpl. intros [= <- _]. eauto.
      * rewrite (collect_pages_pdf fn raw pages Hpdf Hok Hconv).
        destruct (fst _); by intros [=].
    + unfold collect_pages. rewrite Hpdf, Hok. simpl. intros [= <- _]. eauto.
  - destruct (image_open E raw) as [e|img] eqn:Himg.
    + unfold collect_pages, pil_from_bytes. rewrite Hpdf, Himg. simpl.
      intros [= <- _]. eauto.
    + rewrite (collect_pages_image fn raw img Hpdf Himg).
      destruct (fst (preprocess_for_ocr _ _ _)) as [pre|e]; [|by intros [=]].
      destruct (fst (ocr_easyocr_pil E pre)) as [[[txt conf] meta]|e];
        intros [= <- _]; eauto.
Qed.

(** How the pages were read when the handler goes on to score them. *)
Lemma collect_pages_Continue fn raw st l :
  collect_pages E fn raw = (Ret (Continue st), l) ->
  (is_pdf fn raw = true
   /\ exists pages, convert_from_bytes E raw 200 = inr pages
      /\ texts st = map (page_text E) pages
      /\ pages_seen st = Z.of_nat (length pages))
  \/ (is_pdf fn raw = false
      /\ exists txt, texts st = [txt] /\ pages_seen st = 1).
Proof.
  destruct (is_pdf fn raw) eqn:Hpdf.
  - destruct (PDF2IMAGE_OK E) eqn:Hok.
    + destruct (convert_from_bytes E raw 200) as [e|pages] eqn:Hconv.
      * unfold collect_pages, convert_pdf_bytes_to_pil_list.
        rewrite Hpdf, Hok, Hconv. simpl. by intros [=].
      * rewrite (collect_pages_pdf fn raw pages Hpdf Hok Hconv).
        destruct (pdf_loop E pages (mkPages [] [] 0)) as [[st'|e] l'] eqn:Hl;
          simpl; [intros [= -> _]|by intros [=]].
        left. split; [done|]. exists pages. split; [done|].
        destruct (pdf_loop_inv _ _ _ _ Hl) as (Ht & Hs & _).
        by rewrite Ht, Hs.
    + unfold collect_pages. rewrite Hpdf, Hok. simpl. by intros [=].
  - destruct (image_open E raw) as [e|img] eqn:Himg.
    + unfold collect_pages, pil_from_bytes. rewrite Hpdf, Himg. simpl.
      by intros [=].
    + rewrite (collect_pages_image fn raw img Hpdf Himg).
      destruct (fst (preprocess_for_ocr _ _ _)) as [pre|e]; [|by intros [=]].
      destruct (fst (ocr_easyocr_pil E pre)) as [[[txt conf] meta]|e];
        [intros [= <- _]|by intros [=]].
      right. split; [done|]. by exists txt.
Qed.

(** The handler on a request that has the field. *)
Lemma api_verify_some req f :
  files_get "file" (files req) = Some f ->
  let fn := str_or (filename f) "upload" in
  let fh := sha256_hexdigest E (stream f) in
  api_verify E req
  = match collect_pages E fn (stream f) with
    | (Ret (Return r), l) => (r, StepRead :: StepHash :: l)
    | (Ret (Continue st), l) =>
        let ft := Str.strip (Str.join PAGE_SEPARATOR (texts st)) in
        (match fst (has_dates_of (words_of ft) ft) with
         | Ret d => mkResponse (ResultJson (result_of E fn fh st d)) 200
         | Raise e => internal_server_error E e
         end, StepRead :: StepHash :: l ++ [StepScore])
    | (Raise e, l) => (internal_server_error E e, StepRead :: StepHash :: l)
    end.
Proof.
  intros Hf fn fh. unfold api_verify, api_verify_try. rewrite Hf.
  fold fn. unfold sha256_bytes. simpl. unfold mbind, M_bind, bind. simpl.
  fold fh.
  destruct (collect_pages E fn (stream f)) as [[[r|st]|e] l]; simpl.
  - by rewrite app_nil_r.
  - rewrite (verdict_eq fn fh st). simpl.
    destruct (fst (has_dates_of _ _)); reflexivity.
  - reflexivity.
Qed.

(** A 200 answer is the result assembled from the pages that were read. *)
Lemma api_verify_ok_inv req v s :
  fst (api_verify E req) = mkResponse (ResultJson v) s ->
  exists f st d l,
    files_get "file" (files req) = Some f
    /\ collect_pages E (str_or (filename f) "upload") (stream f)
       = (Ret (Continue st), l)
    /\ fst (has_dates_of
              (words_of (Str.strip (Str.join PAGE_SEPARATOR (texts st))))
              (Str.strip (Str.join PAGE_SEPARATOR (texts st)))) = Ret d
    /\ v = result_of E (str_or (filename f) "upload")
                     (sha256_hexdigest E (stream f)) st d
    /\ s = 200.
Proof.
  destruct (files_get "file" (files req)) as [f|] eqn:Hf.
  - rewrite (api_verify_some req f Hf). cbv zeta.
    destruct (collect_pages E _ (stream f)) as [[[r|st]|e] l] eqn:Hc.
    + destruct (collect_pages_Return _ _ _ _ Hc) as (e & s' & ->).
      by intros [=].
    + cbn [fst]. destruct (fst (has_dates_of _ _)) as [d|e] eqn:Hd.
      * intros [= <- <-]. by exists f, st, d, l.
      * by intros [=].
    + by intros [=].
  - unfold api_verify, api_verify_try. rewrite Hf. by intros [=].
Qed.

End HandlerFacts.

(** ** The trust score of an answer *)

Lemma api_verify_trust_score {Image Num} (E : Env Image Num) req v s :
  fst (api_verify E req) = mkResponse (ResultJson v) s ->
  trust_score v
  = quick_trust_score (word_count v)
                      (Z.of_nat (length (detected_issuers v))) (has_dates v).
Proof.
  intros Hok.
  by destruct (api_verify_ok_inv E req v s Hok)
    as (f & st & d & l & _ & _ & _ & -> & _).
Qed.

(** C1: the trust score is 30, plus 30 when the word count exceeds 50, plus
    ten per issuer keyword up to 30, plus 10 when dates were seen, clamped to
    0..100; so it always lies in 0..100, it is 60 for at least 51 words, no
    keyword and no date, and it is the [trust_score] of every 200 answer. *)
Theorem quick_trust_score_correct (w k : Z) (d : bool) :
  quick_trust_score w k d = trust_score_spec w k d
  /\ 0 <= quick_trust_score w k d <= 100
  /\ (51 <= w -> quick_trust_score w 0 false = 60)
  /\ (forall Image Num (E : Env Image Num) req v s,
        fst (api_verify E req) = mkResponse (ResultJson v) s ->
        trust_score v
        = quick_trust_score (word_count v)
                            (Z.of_nat (length (detected_issuers v)))
                            (has_dates v)
        /\ 0 <= trust_score v <= 100).
Proof.
  split; [|split; [|split]].
  - rewrite quick_trust_score_unfold. unfold trust_score_spec.
    destruct (Z_gt_dec w 50) as [Hw|Hw];
      [ rewrite (proj2 (Z.ltb_lt 50 w)) by lia
      | rewrite (proj2 (Z.ltb_ge 50 w)) by lia ];
      destruct d; cbv zeta;
      repeat match goal with |- context [Z_lt_dec ?a ?b] =>
               destruct (Z_lt_dec a b) end; lia.
  - apply quick_trust_score_range.
  - intros Hw. rewrite quick_trust_score_unfold.
    rewrite (proj2 (Z.ltb_lt 50 w)) by lia. reflexivity.
  - intros Image Num E req v s Hok.
    rewrite (api_verify_trust_score E req v s Hok).
    split; [done|apply quick_trust_score_range].
Qed.

Lemma quick_trust_score_correct_witness :
  quick_trust_score 51 0 false = 60.
Proof.
  apply (proj1 (proj2 (proj2 (quick_trust_score_correct 51 0 false)))). lia.
Defined.

(** C9: for a word count, an issuer count (a count: not negative) and a date
    flag the score is at least 30 and the lower clamp changes nothing; the
    [trust_score] of every 200 answer lies in 30..100. *)
Theorem quick_trust_score_at_least_base (w k : Z) (d : bool) :
  (0 <= k ->
   30 <= quick_trust_score w k d <= 100
   /\ quick_trust_score w k d
      = Z.min 100 (30 + (if 50 <? w then 30 else 0)
                      + Z.min 30 (k * 10) + (if d then 10 else 0)))
  /\ (forall Image Num (E : Env Image Num) req v s,
        fst (api_verify E req) = mkResponse (ResultJson v) s ->
        30 <= trust_score v <= 100).
Proof.
  split.
  - intros Hk. rewrite quick_trust_score_unfold. destruct (50 <? w), d; lia.
  - intros Image Num E req v s Hok.
    rewrite (api_verify_trust_score E req v s Hok), quick_trust_score_unfold.
    destruct (50 <? word_count v), (has_dates v); lia.
Qed.

Lemma quick_trust_score_at_least_base_witness :
  30 <= quick_trust_score 0 0 false <= 100.
Proof.
  apply (proj1 (quick_trust_score_at_least_base 0 0 false)). lia.
Defined.

(** ** The snippet *)

Lemma length_snippet_of (full_text : string) :
  (String.length (snippet_of full_text) <= 1003)%nat.
Proof.
  unfold snippet_of, Str.len.
  destruct (1000 <? Z.of_nat (String.length full_text)) eqn:Hlen.
  - rewrite length_append, length_take.
    change (String.length "...") with 3%nat. lia.
  - apply Z.ltb_ge in Hlen. lia.
Qed.

(** C6: the snippet has at most 1003 characters; it is the full text when
    that has at most 1000 characters, and otherwise its first 1000 characters
    followed by three dots; and the snippet of a 200 answer is the snippet of
    its full text. *)
Theorem snippet_of_correct (ft : string) :
  (String.length (snippet_of ft) <= 1003)%nat
  /\ (Str.len ft <= 1000 -> snippet_of ft = ft)
  /\ (1000 < Str.len ft ->
      snippet_of ft = String.append (Str.take 1000 ft) "..."
      /\ String.length (Str.take 1000 ft) = 1000%nat)
  /\ (forall Image Num (E : Env Image Num) req v s,
        fst (api_verify E req) = mkResponse (ResultJson v) s ->
        extracted_text_snippet v = snippet_of (full_text v)).
Proof.
  split; [apply length_snippet_of|]. unfold snippet_of, Str.len.
  split; [|split].
  - intros Hle. by rewrite (proj2 (Z.ltb_ge _ _)) by lia.
  - intros Hlt. rewrite (proj2 (Z.ltb_lt _ _)) by lia.
    split; [done|]. rewrite length_take. lia.
  - intros Image Num E req v s Hok.
    destruct (api_verify_ok_inv E req v s Hok) as (f & st & d & l & _ & _ & _ & -> & _).
    reflexivity.
Qed.

Lemma snippet_of_correct_witness :
  snippet_of "Stanford University" = "Stanford University".
Proof.
  apply (proj1 (proj2 (snippet_of_correct "Stanford University"))).
  vm_compute. discriminate.
Defined.

(** ** The missing field *)

(** C8: a request without a part named [file] is answered 400 with the code
    that names the missing field, and no processing step is started. *)
Theorem api_verify_missing_file {Image Num} (E : Env Image Num) (req : Request) :
  files_get "file" (files req) = None ->
  api_verify E req
  = (jsonify_error "no file part named 'file' in request" None None None 400,
     []).
Proof.
  intros Hf. unfold api_verify, api_verify_try. by rewrite Hf.
Qed.

Lemma api_verify_missing_file_witness :
  api_verify (example_env [] None)
             (mkRequest [ ("document", mkFile (Some "a.png") PNG_BYTES) ])
  = (jsonify_error "no file part named 'file' in request" None None None 400,
     []).
Proof.
  apply (api_verify_missing_file (example_env [] None)). reflexivity.
Defined.

(** ** The default file name *)

(** C10: an upload whose file name is missing or empty is handled exactly as
    the same bytes uploaded under the name [upload], and a 200 answer to it
    reports [upload] as its [file_name]. *)
Theorem api_verify_default_filename {Image Num} (E : Env Image Num)
        (req req' : Request) (f : FileStorage) :
  files_get "file" (files req) = Some f ->
  filename f = None \/ filename f = Some EmptyString ->
  files_get "file" (files req') = Some (mkFile (Some "upload") (stream f)) ->
  api_verify E req = api_verify E req'
  /\ forall v s, fst (api_verify E req) = mkResponse (ResultJson v) s ->
                 file_name v = "upload".
Proof.
  intros Hf Hname Hf'.
  assert (str_or (filename f) "upload" = "upload") as Hor
    by (destruct Hname as [-> | ->]; reflexivity).
  split.
  - rewrite (api_verify_some E req f Hf), (api_verify_some E req' _ Hf').
    cbv zeta. cbn [filename stream]. by rewrite Hor.
  - intros v s Hok.
    destruct (api_verify_ok_inv E req v s Hok)
      as (f0 & st & d & l & Hf0 & _ & _ & -> & _).
    rewrite Hf in Hf0. injection Hf0 as <-. cbn. exact Hor.
Qed.

Lemma api_verify_default_filename_witness :
  api_verify (example_env [] (Some (page ["Degree"]))) (upload None PNG_BYTES)
  = api_verify (example_env [] (Some (page ["Degree"])))
               (upload (Some "upload") PNG_BYTES)
  /\ exists v, fst (api_verify (example_env [] (Some (page ["Degree"])))
                              (upload None PNG_BYTES))
               = mkResponse (ResultJson v) 200
               /\ file_name v = "upload".
Proof.
  pose proof (api_verify_default_filename
                (example_env [] (Some (page ["Degree"])))
                (upload None PNG_BYTES) (upload (Some "upload") PNG_BYTES)
                (mkFile None PNG_BYTES) eq_refl (or_introl eq_refl) eq_refl)
    as [Heq Hname].
  split; [exact Heq|].
  eexists. split; [vm_compute; reflexivity|reflexivity].
Defined.

(** ** Issuer detection *)

Lemma lower_append (a b : string) :
  Str.lower (String.append a b) = String.append (Str.lower a) (Str.lower b).
Proof.
  induction a as [|c a IH]; [done|].
  rewrite append_cons. simpl. by rewrite IH.
Qed.

Lemma lower_split (t x y : string) :
  Str.lower t = String.append x y ->
  exists a b, t = String.append a b /\ Str.lower a = x /\ Str.lower b = y.
Proof.
  revert t. induction x as [|c x IH]; intros t H.
  - by exists EmptyString, t.
  - destruct t as [|d t]; [done|]. rewrite append_cons in H. simpl in H.
    injection H as Hc Ht. destruct (IH t Ht) as (a & b & -> & Ha & Hb).
    exists (String d a), b. simpl. by rewrite Hc, Ha.
Qed.

(** [kw in text.lower()] says that [kw] is the lower-cased form of a piece of
    [text]. *)
Lemma contains_lower (kw text : string) :
  Str.contains kw (Str.lower text) = true
  <-> exists a u b, text = String.append a (String.append u b)
                    /\ Str.lower u = kw.
Proof.
  rewrite contains_spec. split.
  - intros (x & y & H).
    destruct (lower_split _ _ _ H) as (a & r & -> & _ & Hr).
    destruct (lower_split _ _ _ Hr) as (u & b & -> & Hu & _).
    by exists a, u, b.
  - intros (a & u & b & -> & <-).
    exists (Str.lower a), (Str.lower b). by rewrite !lower_append.
Qed.

Lemma KNOWN_ISSUERS_lower :
  Forall (fun kw => Str.lower kw = kw) KNOWN_ISSUERS.
Proof. repeat constructor. Qed.

Lemma found_spec (t : string) (l : list string) (init : gset string) (x : string) :
  x ∈ foldl (fun (found : gset string) kw =>
               if Str.contains kw t then found ∪ {[ kw ]} else found) init l
  <-> x ∈ init \/ (x ∈ l /\ Str.contains x t = true).
Proof.
  revert init. induction l as [|kw l IH]; intros init; simpl.
  - split; [by left|]. intros [?|[H _]]; [done|]. by apply elem_of_nil in H.
  - rewrite IH. destruct (Str.contains kw t) eqn:Hkw.
    + rewrite elem_of_union, elem_of_singleton, elem_of_cons. split.
      * intros [[?| ->]|[? ?]];
          [by left|right; split; [by left|done]|right; split; [by right|done]].
      * intros [?|[[->|?] ?]]; [left; by left|left; by right|by right].
    + rewrite elem_of_cons. split.
      * intros [?|[? ?]]; [by left|right; split; [by right|done]].
      * intros [?|[[->|?] Hx]]; [by left|congruence|by right].
Qed.

Lemma sorted_spec (found : gset string) :
  Sorted String.le (sorted found)
  /\ NoDup (sorted found)
  /\ forall x, x ∈ sorted found <-> x ∈ found.
Proof.
  unfold sorted. split; [apply (Sorted_merge_sort String.le)|].
  pose proof (merge_sort_Permutation String.le (elements found)) as Hp.
  split.
  - rewrite Hp. apply NoDup_elements.
  - intros x. by rewrite Hp, elem_of_elements.
Qed.

Lemma detect_issuer_in_text_spec (text : option string) :
  Sorted String.le (detect_issuer_in_text text)
  /\ NoDup (detect_issuer_in_text text)
  /\ forall kw, kw ∈ detect_issuer_in_text text
                <-> kw ∈ KNOWN_ISSUERS
                    /\ occurs_ignoring_case kw (str_or text EmptyString).
Proof.
  unfold detect_issuer_in_text.
  destruct (sorted_spec
    (foldl (fun (found : gset string) kw =>
              if Str.contains kw (Str.lower (str_or text EmptyString))
              then found ∪ {[ kw ]} else found) ∅ KNOWN_ISSUERS))
    as (Hs & Hn & Hm).
  split; [exact Hs|]. split; [exact Hn|].
  intros kw. rewrite Hm, found_spec. unfold occurs_ignoring_case.
  split.
  - intros [H|[Hin Hc]]; [by apply not_elem_of_empty in H|].
    split; [done|]. apply contains_lower in Hc as (a & u & b & Ht & Hu).
    exists a, u, b. split; [done|].
    pose proof KNOWN_ISSUERS_lower as Hl. rewrite Forall_forall in Hl.
    by rewrite (Hl kw Hin).
  - intros [Hin (a & u & b & Ht & Hu)]. right. split; [done|].
    apply contains_lower. exists a, u, b. split; [done|].
    pose proof KNOWN_ISSUERS_lower as Hl. rewrite Forall_forall in Hl.
    by rewrite <-(Hl kw Hin).
Qed.

(** C7: the detected issuers are in ascending order without repetition, and
    they are exactly the listed keywords that occur in the text when case is
    ignored; the [detected_issuers] of a 200 answer are those of its full
    text. *)
Theorem detect_issuer_in_text_correct (text : option string) :
  Sorted String.le (detect_issuer_in_text text)
  /\ NoDup (detect_issuer_in_text text)
  /\ (forall kw, kw ∈ detect_issuer_in_text text
                 <-> kw ∈ KNOWN_ISSUERS
                     /\ occurs_ignoring_case kw (str_or text EmptyString))
  /\ (forall Image Num (E : Env Image Num) req v s,
        fst (api_verify E req) = mkResponse (ResultJson v) s ->
        detected_issuers v = detect_issuer_in_text (Some (full_text v))).
Proof.
  destruct (detect_issuer_in_text_spec text) as (Hs & Hn & Hm).
  split; [exact Hs|]. split; [exact Hn|]. split; [exact Hm|].
  intros Image Num E req v s Hok.
  by destruct (api_verify_ok_inv E req v s Hok)
    as (f & st & d & l & _ & _ & _ & -> & _).
Qed.

(** ** Recognition failures *)

Lemma page_text_recognition_fails {Image Num} (E : Env Image Num) (p : Image) :
  recognition_fails E p -> page_text E p = EmptyString.
Proof.
  intros (pre & e & Hpre & Hocr). unfold page_text.
  by rewrite fst_bind, Hpre, Hocr.
Qed.

(** C2 as the specification states it fails on the image path: recognition
    of the decoded image raises and the failure is reported. *)
Lemma image_recognition_failure_is_reported :
  is_pdf "scan.png" PNG_BYTES = false
  /\ image_open (example_env [] (Some bad_page)) PNG_BYTES = inr bad_page
  /\ recognition_fails (example_env [] (Some bad_page)) bad_page
  /\ fst (api_verify (example_env [] (Some bad_page))
                     (upload (Some "scan.png") PNG_BYTES))
     = jsonify_error "ocr_failed" None (Some "unreadable page")
                     (Some "Traceback: unreadable page") 500
  /\ status (fst (api_verify (example_env [] (Some bad_page))
                             (upload (Some "scan.png") PNG_BYTES))) <> 200.
Proof.
  split; [reflexivity|]. split; [reflexivity|]. split.
  - do 2 eexists. split; vm_compute; reflexivity.
  - split; [vm_compute; reflexivity|vm_compute; discriminate].
Qed.

(** C2, amended: in a PDF whose pages were extracted and all normalise, a
    page whose recognition fails adds the empty string to the page texts and
    the failure is not reported: the answer is the 200 result built from the
    page texts, or [internal_server_error] when the date scan of the joined
    text raises.  For an image a recognition failure is reported as the 500
    answer [ocr_failed]. *)
Theorem api_verify_recognition_failure {Image Num} (E : Env Image Num)
        (req : Request) (f : FileStorage) :
  files_get "file" (files req) = Some f ->
  (forall pages,
      is_pdf (str_or (filename f) "upload") (stream f) = true ->
      PDF2IMAGE_OK E = true ->
      convert_from_bytes E (stream f) 200 = inr pages ->
      Forall (normalizes E) pages ->
      (forall p, p ∈ pages -> recognition_fails E p ->
                 page_text E p = EmptyString)
      /\ match fst (has_dates_of
                      (words_of (Str.strip (Str.join PAGE_SEPARATOR
                                              (map (page_text E) pages))))
                      (Str.strip (Str.join PAGE_SEPARATOR
                                    (map (page_text E) pages)))) with
         | Ret d =>
             exists v, fst (api_verify E req) = mkResponse (ResultJson v) 200
                       /\ full_text v
                          = Str.strip (Str.join PAGE_SEPARATOR
                                         (map (page_text E) pages))
                       /\ page_count v = Z.of_nat (length pages)
                       /\ has_dates v = d
         | Raise e => fst (api_verify E req) = internal_server_error E e
         end)
  /\ (forall img pre e,
         is_pdf (str_or (filename f) "upload") (stream f) = false ->
         image_open E (stream f) = inr img ->
         fst (preprocess_for_ocr E (convert E img "RGB") MIN_DIM) = Ret pre ->
         fst (ocr_easyocr_pil E pre) = Raise e ->
         fst (api_verify E req)
         = jsonify_error "ocr_failed" None (Some (exn_str e))
                         (Some (format_exc E e)) 500).
Proof.
  intros Hf. split.
  - intros pages Hpdf Hok Hconv Hnorm.
    split; [intros p _; apply page_text_recognition_fails|].
    rewrite (api_verify_some E req f Hf). cbv zeta.
    rewrite (collect_pages_pdf E _ _ pages Hpdf Hok Hconv).
    destruct (pdf_loop_normalizes E pages (mkPages [] [] 0) Hnorm)
      as (confs & l & ->).
    cbn [fst snd texts pages_seen app].
    destruct (fst (has_dates_of _ _)) as [d|e]; [|reflexivity].
    eexists. split; [reflexivity|]. cbn. split; [done|]. split; [lia|done].
  - intros img pre e Hpdf Himg Hpre Hocr.
    rewrite (api_verify_some E req f Hf). cbv zeta.
    rewrite (collect_pages_image E _ _ img Hpdf Himg), Hpre. cbn [fst].
    by rewrite Hocr.
Qed.

Lemma api_verify_recognition_failure_witness :
  page_text (example_env [page ["a"]; bad_page; page ["b"]] None) bad_page
  = EmptyString
  /\ exists v,
       fst (api_verify (example_env [page ["a"]; bad_page; page ["b"]] None)
                       (upload (Some "scan.pdf") PDF_MAGIC))
       = mkResponse (ResultJson v) 200
       /\ page_count v = 3.
Proof.
  assert (Forall (normalizes (example_env [page ["a"]; bad_page; page ["b"]] None))
                 [page ["a"]; bad_page; page ["b"]]) as Hnorm.
  { repeat constructor; eexists; reflexivity. }
  destruct (proj1 (api_verify_recognition_failure
                     (example_env [page ["a"]; bad_page; page ["b"]] None)
                     (upload (Some "scan.pdf") PDF_MAGIC)
                     (mkFile (Some "scan.pdf") PDF_MAGIC) eq_refl)
                  [page ["a"]; bad_page; page ["b"]]
                  eq_refl eq_refl eq_refl Hnorm) as [Hfail Hres].
  split.
  - apply Hfail; [rewrite !elem_of_cons; auto|].
    do 2 eexists. split; vm_compute; reflexivity.
  - vm_compute in Hres. destruct Hres as (v & Hv & _ & Hc & _).
    exists v. split; [vm_compute; exact Hv|exact Hc].
Defined.

(** ** Counting page markers *)

(** A marker is solid when it is not empty and has no white space in it. *)
Lemma solid_head (m : string) :
  m <> EmptyString ->
  Str.all (fun c => negb (Char.isspace c)) m = true ->
  exists a m', m = String a m' /\ Char.isspace a = false
               /\ Str.all (fun c => negb (Char.isspace c)) m' = true.
Proof.
  destruct m as [|a m']; [done|]. intros _ H. simpl in H.
  apply andb_true_iff in H as [Ha Hm]. apply negb_true_iff in Ha. eauto.
Qed.

Section Occurrences.

Variable m : string.
Hypothesis m_nonempty : m <> EmptyString.
Hypothesis m_solid : Str.all (fun c => negb (Char.isspace c)) m = true.

Lemma prefix_solid_space c s :
  Char.isspace c = true -> String.prefix m (String c s) = false.
Proof using m_nonempty m_solid.
  intros Hc. destruct (solid_head m m_nonempty m_solid) as (a & m' & -> & Ha & _).
  rewrite prefix_cons. rewrite bool_decide_eq_false_2; [done|]. intros ->.
  by rewrite Hc in Ha.
Qed.

Lemma prefix_solid_empty : String.prefix m EmptyString = false.
Proof using m_nonempty.
  destruct (String.prefix m EmptyString) eqn:H; [|done].
  by apply prefix_empty_r in H.
Qed.

Lemma occurrences_empty : Str.occurrences m EmptyString = 0%nat.
Proof using m_nonempty.
  change (Str.occurrences m EmptyString)
    with ((if String.prefix m EmptyString then 1 else 0) + 0)%nat.
  by rewrite prefix_solid_empty.
Qed.

Lemma occurrences_cons c s :
  Str.occurrences m (String c s)
  = ((if String.prefix m (String c s) then 1 else 0)
     + Str.occurrences m s)%nat.
Proof using Type. reflexivity. Qed.

Lemma occurrences_space c s :
  Char.isspace c = true ->
  Str.occurrences m (String c s) = Str.occurrences m s.
Proof using m_nonempty m_solid.
  intros Hc. by rewrite occurrences_cons, prefix_solid_space.
Qed.

(** A solid marker cannot reach across white space. *)
Lemma prefix_barrier t c r :
  Char.isspace c = true ->
  String.prefix m (String.append t (String c r)) = String.prefix m t.
Proof using m_solid.
  intros Hc. clear m_nonempty. revert t.
  induction m as [|a m' IH]; intros t.
  - by destruct t.
  - simpl in m_solid. apply andb_true_iff in m_solid as [Ha Hm].
    destruct t as [|d t].
    + rewrite append_nil, prefix_cons. simpl.
      rewrite bool_decide_eq_false_2; [done|]. intros ->.
      by rewrite Hc in Ha.
    + rewrite append_cons, !prefix_cons. by rewrite (IH Hm).
Qed.

Lemma occurrences_barrier t c r :
  Char.isspace c = true ->
  Str.occurrences m (String.append t (String c r))
  = (Str.occurrences m t + Str.occurrences m r)%nat.
Proof using m_nonempty m_solid.
  intros Hc. induction t as [|d t IH].
  - by rewrite append_nil, occurrences_empty, occurrences_space.
  - rewrite append_cons, !occurrences_cons, IH.
    rewrite <-append_cons, (prefix_barrier _ c r Hc). lia.
Qed.

(** Stripping white space neither removes nor adds a solid marker. *)
Lemma occurrences_lstrip s :
  Str.occurrences m (Str.lstrip s) = Str.occurrences m s.
Proof using m_nonempty m_solid.
  induction s as [|c s IH]; [done|]. simpl Str.lstrip.
  destruct (Char.isspace c) eqn:Hc; [|done].
  by rewrite IH, occurrences_space.
Qed.

Lemma rstrip_cons c s :
  Str.rstrip (String c s)
  = if bool_decide (Str.rstrip s = EmptyString) && Char.isspace c
    then EmptyString else String c (Str.rstrip s).
Proof using Type.
  simpl. destruct (Str.rstrip s) as [|d r]; [|done].
  by destruct (Char.isspace c).
Qed.

Lemma prefix_rstrip s : String.prefix m (Str.rstrip s) = String.prefix m s.
Proof using m_solid.
  clear m_nonempty. revert s. induction m as [|a m' IH]; intros s.
  - by destruct s, (Str.rstrip _).
  - simpl in m_solid. apply andb_true_iff in m_solid as [Ha Hm].
    apply negb_true_iff in Ha.
    destruct s as [|c s]; [done|]. rewrite rstrip_cons.
    destruct (bool_decide (Str.rstrip s = EmptyString) && Char.isspace c)
      eqn:Hb.
    + apply andb_true_iff in Hb as [_ Hc]. rewrite prefix_cons.
      rewrite bool_decide_eq_false_2; [done|]. intros ->. congruence.
    + by rewrite !prefix_cons, (IH Hm).
Qed.

Lemma occurrences_rstrip s :
  Str.occurrences m (Str.rstrip s) = Str.occurrences m s.
Proof using m_nonempty m_solid.
  induction s as [|c s IH]; [done|].
  rewrite occurrences_cons, <-IH, <-prefix_rstrip, rstrip_cons.
  destruct (bool_decide (Str.rstrip s = EmptyString) && Char.isspace c)
    eqn:Hb.
  - apply andb_true_iff in Hb as [Hr _]. apply bool_decide_eq_true in Hr.
    by rewrite Hr, occurrences_empty, prefix_solid_empty.
  - by rewrite occurrences_cons.
Qed.

Lemma occurrences_strip s :
  Str.occurrences m (Str.strip s) = Str.occurrences m s.
Proof using m_nonempty m_solid.
  unfold Str.strip. by rewrite occurrences_rstrip, occurrences_lstrip.
Qed.

Lemma occurrences_absent s :
  Str.contains m s = false -> Str.occurrences m s = 0%nat.
Proof using m_nonempty.
  induction s as [|c s IH].
  - intros _. apply occurrences_empty.
  - rewrite contains_cons, occurrences_cons. intros H.
    apply orb_false_iff in H as [-> Hs]. by rewrite (IH Hs).
Qed.

End Occurrences.

Lemma PAGE_MARKER_nonempty : PAGE_MARKER <> EmptyString.
Proof. discriminate. Qed.

Lemma PAGE_MARKER_solid :
  Str.all (fun c => negb (Char.isspace c)) PAGE_MARKER = true.
Proof. reflexivity. Qed.

Lemma join_cons2 (sep x y : string) (l : list string) :
  Str.join sep (x :: y :: l)
  = String.append x (String.append sep (Str.join sep (y :: l))).
Proof. reflexivity. Qed.

(** One separator carries one marker. *)
Lemma occurrences_separator (t r : string) :
  Str.occurrences PAGE_MARKER (String.append t (String.append PAGE_SEPARATOR r))
  = (Str.occurrences PAGE_MARKER t + 1 + Str.occurrences PAGE_MARKER r)%nat.
Proof.
  change (String.append PAGE_SEPARATOR r)
    with (String "010" (String "010" (String.append PAGE_MARKER
            (String "010" (String "010" r))))).
  rewrite (occurrences_barrier _ PAGE_MARKER_nonempty PAGE_MARKER_solid)
    by reflexivity.
  rewrite (occurrences_space _ PAGE_MARKER_nonempty PAGE_MARKER_solid)
    by reflexivity.
  rewrite (occurrences_barrier _ PAGE_MARKER_nonempty PAGE_MARKER_solid)
    by reflexivity.
  rewrite (occurrences_space _ PAGE_MARKER_nonempty PAGE_MARKER_solid)
    by reflexivity.
  change (Str.occurrences PAGE_MARKER PAGE_MARKER) with 1%nat. lia.
Qed.

(** The joined text has one marker per gap between pages, besides those the
    page texts bring. *)
Lemma occurrences_join (l : list string) :
  Str.occurrences PAGE_MARKER (Str.join PAGE_SEPARATOR l)
  = (sum_list (Str.occurrences PAGE_MARKER <$> l) + (length l - 1))%nat.
Proof.
  induction l as [|x [|y l] IH].
  - reflexivity.
  - change (Str.join PAGE_SEPARATOR [x]) with x. simpl. lia.
  - rewrite join_cons2, occurrences_separator, IH.
    change (Str.occurrences PAGE_MARKER <$> x :: y :: l)
      with (Str.occurrences PAGE_MARKER x
            :: (Str.occurrences PAGE_MARKER <$> y :: l)).
    simpl sum_list. simpl length. lia.
Qed.

Lemma sum_list_absent (l : list string) :
  Forall (fun t => Str.contains PAGE_MARKER t = false) l ->
  sum_list (Str.occurrences PAGE_MARKER <$> l) = 0%nat.
Proof.
  induction 1 as [|t l Ht _ IH]; [done|].
  rewrite fmap_cons. simpl.
  by rewrite (occurrences_absent _ PAGE_MARKER_nonempty t Ht), IH.
Qed.

(** C4 as the specification states it fails in two ways: an image on which
    the marker is printed has one page and one marker, and a PDF whose first
    page is blank has two pages and no whole separator. *)
Lemma page_markers_counterexample :
  (exists v,
      fst (api_verify (example_env [] (Some (page ["---PAGE---"])))
                      (upload (Some "scan.png") PNG_BYTES))
      = mkResponse (ResultJson v) 200
      /\ page_count v = 1
      /\ Str.occurrences PAGE_MARKER (full_text v) = 1%nat)
  /\ (exists v,
        fst (api_verify (example_env [page []; page ["Degree"]] None)
                        (upload (Some "scan.pdf") PDF_MAGIC))
        = mkResponse (ResultJson v) 200
        /\ page_count v = 2
        /\ Str.occurrences PAGE_SEPARATOR (full_text v) = 0%nat).
Proof.
  split; eexists; (split; [vm_compute; reflexivity|]); split; reflexivity.
Qed.

(** C4, amended: in a 200 answer [page_count] is the number of pages read
    (one for an image, the number of rasterised pages for a PDF) and
    [full_text] is the stripped join of their texts; it has one marker
    [---PAGE---] per gap between pages besides those inside the page texts,
    so exactly [page_count - 1] when there is a page and no page text
    contains the marker. *)
Theorem api_verify_page_count {Image Num} (E : Env Image Num)
        (req : Request) (v : VerificationResult Num) (s : Z) :
  fst (api_verify E req) = mkResponse (ResultJson v) s ->
  exists f txts,
    files_get "file" (files req) = Some f
    /\ page_count v = Z.of_nat (length txts)
    /\ full_text v = Str.strip (Str.join PAGE_SEPARATOR txts)
    /\ (is_pdf (str_or (filename f) "upload") (stream f) = false ->
        page_count v = 1)
    /\ (is_pdf (str_or (filename f) "upload") (stream f) = true ->
        exists pages, convert_from_bytes E (stream f) 200 = inr pages
                      /\ page_count v = Z.of_nat (length pages)
                      /\ txts = map (page_text E) pages)
    /\ Str.occurrences PAGE_MARKER (full_text v)
       = (sum_list (Str.occurrences PAGE_MARKER <$> txts)
          + (length txts - 1))%nat
    /\ (1 <= page_count v ->
        Forall (fun t => Str.contains PAGE_MARKER t = false) txts ->
        Z.of_nat (Str.occurrences PAGE_MARKER (full_text v))
        = page_count v - 1).
Proof.
  intros Hok.
  destruct (api_verify_ok_inv E req v s Hok)
    as (f & st & d & l & Hf & Hc & _ & -> & _).
  exists f, (texts st). split; [exact Hf|]. cbn [page_count full_text result_of].
  assert (Str.occurrences PAGE_MARKER
            (Str.strip (Str.join PAGE_SEPARATOR (texts st)))
          = (sum_list (Str.occurrences PAGE_MARKER <$> texts st)
             + (length (texts st) - 1))%nat) as Hocc.
  { rewrite (occurrences_strip _ PAGE_MARKER_nonempty PAGE_MARKER_solid).
    apply occurrences_join. }
  assert (pages_seen st = Z.of_nat (length (texts st))) as Hseen.
  { destruct (collect_pages_Continue E _ _ _ _ Hc)
      as [(_ & pages & _ & -> & ->)|(_ & txt & -> & ->)].
    - by rewrite length_map.
    - reflexivity. }
  split; [exact Hseen|]. split; [reflexivity|].
  destruct (collect_pages_Continue E _ _ _ _ Hc)
    as [(Hpdf & pages & Hconv & Ht & Hs)|(Hpdf & txt & Ht & Hs)].
  - split; [intros H; congruence|]. split; [intros _; by exists pages|].
    split; [exact Hocc|]. intros Hone Habs.
    rewrite Hocc, (sum_list_absent _ Habs), Hseen. lia.
  - split; [done|]. split; [intros H; congruence|].
    split; [exact Hocc|]. intros Hone Habs.
    rewrite Hocc, (sum_list_absent _ Habs), Hseen. lia.
Qed.

Lemma api_verify_page_count_witness :
  exists v,
    fst (api_verify (example_env [page ["a"]; bad_page; page ["b"]] None)
                    (upload (Some "scan.pdf") PDF_MAGIC))
    = mkResponse (ResultJson v) 200
    /\ page_count v = 3
    /\ Z.of_nat (Str.occurrences PAGE_MARKER (full_text v)) = page_count v - 1.
Proof.
  eexists. split; [vm_compute; reflexivity|]. split; [reflexivity|].
  destruct (api_verify_page_count
              (example_env [page ["a"]; bad_page; page ["b"]] None)
              (upload (Some "scan.pdf") PDF_MAGIC) _ 200 eq_refl)
    as (f & txts & Hf & Hn & Hft & _ & Hpdf & _ & Hcount).
  injection Hf as <-.
  destruct (Hpdf eq_refl) as (pages & Hconv & _ & ->).
  injection Hconv as <-.
  apply Hcount; [vm_compute; discriminate|].
  repeat constructor.
Defined.

(** ** Date detection *)

Lemma all_append (p : ascii -> bool) (a b : string) :
  Str.all p (String.append a b) = Str.all p a && Str.all p b.
Proof.
  induction a as [|c a IH]; [done|].
  rewrite append_cons. simpl. by rewrite IH, andb_assoc.
Qed.

Lemma all_impl (p q : ascii -> bool) (s : string) :
  (forall c, p c = true -> q c = true) ->
  Str.all p s = true -> Str.all q s = true.
Proof.
  intros Hpq. induction s as [|c s IH]; [done|]. simpl.
  intros H. apply andb_true_iff in H as [Hc Hs].
  by rewrite (Hpq c Hc), (IH Hs).
Qed.

(** The tokens of [split] are not empty, have no white space, and are made
    of characters of the text. *)
Lemma split_go_tokens (p : ascii -> bool) (s : string) (cur : option string) :
  (forall w, cur = Some w ->
             w <> EmptyString
             /\ Str.all (fun c => negb (Char.isspace c) && p c) w = true) ->
  Str.all (fun c => Char.isspace c || p c) s = true ->
  Forall (fun w => w <> EmptyString
                   /\ Str.all (fun c => negb (Char.isspace c) && p c) w = true)
         (Str.split_go cur s).
Proof.
  revert cur. induction s as [|c s IH]; intros cur Hcur Hs; simpl.
  - destruct cur as [w|]; [|constructor]. by repeat constructor; apply Hcur.
  - simpl in Hs. apply andb_true_iff in Hs as [Hc Hs].
    destruct (Char.isspace c) eqn:Hsp.
    + assert (Forall (fun w => w <> EmptyString
                /\ Str.all (fun c => negb (Char.isspace c) && p c) w = true)
                (Str.split_go None s)) as Hrest by (apply IH; [done|exact Hs]).
      destruct cur as [w|]; [|exact Hrest].
      constructor; [by apply Hcur|exact Hrest].
    + apply IH; [|exact Hs]. intros w [= <-]. split.
      * destruct cur as [[|d w]|]; done.
      * rewrite all_append. simpl. rewrite Hsp. simpl in Hc. rewrite Hc.
        simpl. rewrite andb_true_r.
        destruct cur as [w|]; [by apply Hcur|done].
Qed.

Lemma lstrip_solid (w : string) :
  Str.all (fun c => negb (Char.isspace c)) w = true -> Str.lstrip w = w.
Proof.
  destruct w as [|c w]; [done|]. simpl. intros H.
  apply andb_true_iff in H as [Hc _]. apply negb_true_iff in Hc.
  by rewrite Hc.
Qed.

Lemma rstrip_solid (w : string) :
  Str.all (fun c => negb (Char.isspace c)) w = true -> Str.rstrip w = w.
Proof.
  induction w as [|c w IH]; [done|]. simpl Str.all. intros H.
  apply andb_true_iff in H as [Hc Hw]. apply negb_true_iff in Hc.
  rewrite rstrip_cons, (IH Hw), Hc. by rewrite andb_false_r.
Qed.

Lemma filter_all_true {A} (f : A -> bool) (l : list A) :
  Forall (fun x => f x = true) l -> List.filter f l = l.
Proof.
  induction 1 as [|x l Hx _ IH]; [done|]. simpl. by rewrite Hx, IH.
Qed.

(** The test [if w.strip()] of the comprehension drops no token. *)
Lemma words_of_split (t : string) : words_of t = Str.split t.
Proof.
  unfold words_of. apply filter_all_true.
  pose proof (split_go_tokens (fun _ => true) t None) as H.
  eapply Forall_impl; [apply H|].
  - by intros w [=].
  - clear. induction t as [|c t IH]; [done|]. simpl.
    by rewrite IH, orb_true_r.
  - intros w [Hne Hw]. simpl.
    assert (Str.all (fun c => negb (Char.isspace c)) w = true) as Hsolid.
    { eapply all_impl; [|exact Hw]. intros c Hc. simpl in Hc.
      by rewrite andb_true_r in Hc. }
    unfold Str.strip. rewrite (lstrip_solid w Hsolid), (rstrip_solid w Hsolid).
    destruct w; [done|reflexivity].
Qed.

Lemma len_eqb (tok : string) (n : nat) :
  (Str.len tok =? Z.of_nat n) = Nat.eqb (String.length tok) n.
Proof.
  unfold Str.len. destruct (Nat.eqb_spec (String.length tok) n) as [->|Hne].
  - apply Z.eqb_refl.
  - apply Z.eqb_neq. lia.
Qed.

Lemma isdecimal_isdigit (c : ascii) :
  Char.isdecimal c = true -> Char.isdigit c = true.
Proof. unfold Char.isdigit. by intros ->. Qed.

Lemma isdigit_false_not_decimal (tok : string) :
  Str.isdigit tok = false ->
  Str.all Char.isdecimal tok && Nat.eqb (String.length tok) 4 = false.
Proof.
  destruct tok as [|c tok]; [done|]. unfold Str.isdigit. intros H.
  destruct (Str.all Char.isdecimal (String c tok)) eqn:Hd; [|done].
  by rewrite (all_impl _ _ _ isdecimal_isdigit Hd) in H.
Qed.

(** Away from the odd tokens the test of one token is the specification's. *)
Lemma is_year_token_spec (tok : string) :
  odd_digit_token tok = false ->
  is_year_token tok = (Ret (year_token tok), []).
Proof.
  unfold odd_digit_token, is_year_token, year_token, int_of_digits.
  change 4 with (Z.of_nat 4). rewrite len_eqb.
  destruct (Str.isdigit tok) eqn:Hdig.
  - destruct (Nat.eqb (String.length tok) 4) eqn:Hlen.
    + destruct (Str.all Char.isdecimal tok); [reflexivity|done].
    + intros _. by rewrite andb_false_r.
  - intros _. by rewrite (isdigit_false_not_decimal tok Hdig).
Qed.

Lemma any_m_year_spec (ws : list string) :
  Forall (fun tok => odd_digit_token tok = false) ws ->
  any_m is_year_token ws = (Ret (existsb year_token ws), []).
Proof.
  induction 1 as [|tok ws Htok _ IH]; [done|]. simpl.
  rewrite (is_year_token_spec tok Htok).
  destruct (year_token tok); [reflexivity|].
  unfold mbind, M_bind, bind. by rewrite IH.
Qed.

Lemma str_or_some_empty (t : string) : str_or (Some t) EmptyString = t.
Proof. by destruct t. Qed.

(** Date detection on a text none of whose tokens is odd. *)
Lemma has_dates_of_no_odd (t : string) :
  Forall (fun tok => odd_digit_token tok = false) (Str.split t) ->
  has_dates_of (words_of t) t = (Ret (date_spec t), []).
Proof.
  intros Hodd. unfold has_dates_of, date_spec.
  rewrite words_of_split, (any_m_year_spec _ Hodd), str_or_some_empty.
  by destruct (existsb year_token (Str.split t)).
Qed.

(** When the test of a token returns, it returns the specification's. *)
Lemma is_year_token_Ret (tok : string) (b : bool) :
  fst (is_year_token tok) = Ret b -> b = year_token tok.
Proof.
  destruct (odd_digit_token tok) eqn:Hodd.
  - unfold odd_digit_token in Hodd.
    apply andb_true_iff in Hodd as [Hodd Hdec].
    apply andb_true_iff in Hodd as [Hdig Hlen].
    apply negb_true_iff in Hdec.
    unfold is_year_token, int_of_digits. by rewrite Hdig, Hlen, Hdec.
  - rewrite (is_year_token_spec tok Hodd). by intros [=].
Qed.

Lemma any_m_year_Ret (ws : list string) (b : bool) :
  fst (any_m is_year_token ws) = Ret b -> b = existsb year_token ws.
Proof.
  induction ws as [|tok ws IH]; [by intros [=]|].
  rewrite any_m_fst. simpl existsb.
  destruct (fst (is_year_token tok)) as [b0|e] eqn:Htok; [|done].
  rewrite <-(is_year_token_Ret tok b0 Htok).
  destruct b0; [by intros [=]|exact IH].
Qed.

Lemma has_dates_of_Ret (t : string) (d : bool) :
  fst (has_dates_of (words_of t) t) = Ret d -> d = date_spec t.
Proof.
  unfold has_dates_of, date_spec. rewrite fst_bind, words_of_split.
  destruct (fst (any_m is_year_token (Str.split t))) as [b|e] eqn:Hany;
    [|done].
  rewrite <-(any_m_year_Ret _ b Hany), str_or_some_empty.
  destruct b; by intros [=].
Qed.

Lemma isdigit_ascii_isdecimal (c : ascii) :
  isascii c = true -> Char.isdigit c = true -> Char.isdecimal c = true.
Proof.
  unfold isascii, Char.isdigit. intros Ha Hd.
  apply N.ltb_lt in Ha.
  repeat (apply orb_true_iff in Hd as [Hd|Hd]);
    [exact Hd|apply N.eqb_eq in Hd; lia..].
Qed.

(** Date detection on a text of ASCII characters. *)
Lemma has_dates_of_ascii (t : string) :
  Str.all isascii t = true ->
  has_dates_of (words_of t) t = (Ret (date_spec t), []).
Proof.
  intros Hascii. apply has_dates_of_no_odd.
  pose proof (split_go_tokens isascii t None) as H.
  eapply Forall_impl; [apply H|].
  - by intros w [=].
  - eapply all_impl; [|exact Hascii]. intros c ->. apply orb_true_r.
  - intros w [_ Hw]. simpl. unfold odd_digit_token.
    destruct (Str.isdigit w) eqn:Hdig; [|done].
    destruct (Str.len w =? 4); [|done]. simpl. apply negb_false_iff.
    destruct w as [|c w]; [done|]. unfold Str.isdigit in Hdig.
    revert Hw Hdig. generalize (String c w). clear. intros w.
    induction w as [|c w IH]; [done|]. simpl. intros Hw Hd.
    apply andb_true_iff in Hw as [Hc Hw]. apply andb_true_iff in Hc as [_ Hc].
    apply andb_true_iff in Hd as [Hdc Hd].
    by rewrite (isdigit_ascii_isdecimal c Hc Hdc), (IH Hw Hd).
Qed.

(** Date detection agrees with the specification wherever it returns: it
    returns on every text none of whose tokens is odd, so on every text of
    ASCII characters, and the [has_dates] of a 200 answer is the
    specification's flag of its full text. *)
Theorem has_dates_of_correct (t : string) :
  (forall d, fst (has_dates_of (words_of t) t) = Ret d -> d = date_spec t)
  /\ (Forall (fun tok => odd_digit_token tok = false) (Str.split t) ->
      has_dates_of (words_of t) t = (Ret (date_spec t), []))
  /\ (Str.all isascii t = true ->
      has_dates_of (words_of t) t = (Ret (date_spec t), []))
  /\ (forall Image Num (E : Env Image Num) req v s,
        fst (api_verify E req) = mkResponse (ResultJson v) s ->
        has_dates v = date_spec (full_text v)).
Proof.
  split; [apply has_dates_of_Ret|]. split; [apply has_dates_of_no_odd|].
  split; [apply has_dates_of_ascii|].
  intros Image Num E req v s Hok.
  destruct (api_verify_ok_inv E req v s Hok)
    as (f & st & d & l & _ & _ & Hd & -> & _).
  apply has_dates_of_Ret. exact Hd.
Qed.

Lemma has_dates_of_correct_witness :
  has_dates_of (words_of "issued on 2150") "issued on 2150" = (Ret true, []).
Proof.
  apply (proj1 (proj2 (proj2 (has_dates_of_correct "issued on 2150")))).
  reflexivity.
Defined.

(** The three readings the specification lists. *)
Example has_dates_examples :
  has_dates_of (words_of "Class of 1999") "Class of 1999" = (Ret true, [])
  /\ has_dates_of (words_of "Room 2150") "Room 2150" = (Ret false, [])
  /\ has_dates_of (words_of "issued on 2150") "issued on 2150" = (Ret true, []).
Proof. repeat split. Qed.

(** C5 at a token of superscript digits: the specification's flag is true
    for both texts, and the handler raises and answers 500. *)
Theorem has_dates_odd_year_raises :
  date_spec (String.append ODD_YEAR " 1999") = true
  /\ fst (has_dates_of (words_of (String.append ODD_YEAR " 1999"))
                       (String.append ODD_YEAR " 1999"))
     = Raise (ValueError
         (String.append "invalid literal for int() with base 10: '"
                        (String.append ODD_YEAR "'")))
  /\ date_spec (String.append "issued on " ODD_YEAR) = true
  /\ fst (has_dates_of (words_of (String.append "issued on " ODD_YEAR))
                       (String.append "issued on " ODD_YEAR))
     = Raise (ValueError
         (String.append "invalid literal for int() with base 10: '"
                        (String.append ODD_YEAR "'")))
  /\ fst (api_verify
            (example_env [] (Some (page [String.append "issued on " ODD_YEAR])))
            (upload (Some "scan.png") PNG_BYTES))
     = internal_server_error
         (example_env [] (Some (page [String.append "issued on " ODD_YEAR])))
         (ValueError
            (String.append "invalid literal for int() with base 10: '"
                           (String.append ODD_YEAR "'"))).
Proof. repeat split. Qed.

(** ** The static file route *)

(** The route on the example host: a file of the front end is sent, a file
    that is not there is a 404, and the backend's own source is refused. *)
Example serve_frontend_file_examples :
  serve_frontend_file example_host "index.html"
  = send_file "/srv/app/frontend/index.html"
  /\ serve_frontend_file example_host "nothing.css" = abort 404
  /\ serve_frontend_file example_host "../backend/app.py" = abort 403.
Proof. repeat split. Qed.

(** C3 at a directory beside the front end whose name starts like its name:
    the requested path leaves the root, and the route sends the file. *)
Theorem serve_frontend_file_sibling_directory :
  FRONTEND_DIR example_host = "/srv/app/frontend"
  /\ Path.normpath (Path.join (FRONTEND_DIR example_host)
                              [ "../frontend_old/keys.txt" ])
     = "/srv/app/frontend_old/keys.txt"
  /\ Path.within (FRONTEND_DIR example_host) "/srv/app/frontend_old/keys.txt"
     = false
  /\ Path.below (FRONTEND_DIR example_host) "/srv/app/frontend_old/keys.txt"
     = false
  /\ serve_frontend_file example_host "../frontend_old/keys.txt"
     = send_file "/srv/app/frontend_old/keys.txt"
  /\ serve_frontend_file example_host "../frontend_old/missing.txt"
     = abort 404.
Proof. repeat split. Qed.





(** * Further properties *)

(** ** The trust score: order and values *)

(** More words, more issuer keywords or a date never lower the score. *)
Theorem quick_trust_score_monotone (w w' k k' : Z) (d d' : bool) :
  w <= w' -> k <= k' -> (d = true -> d' = true) ->
  quick_trust_score w k d <= quick_trust_score w' k' d'.
Proof.
  intros Hw Hk Hd. rewrite !quick_trust_score_unfold.
  destruct (50 <? w) eqn:Hlt.
  - apply Z.ltb_lt in Hlt. rewrite (proj2 (Z.ltb_lt 50 w')) by lia.
    destruct d; [rewrite (Hd eq_refl)|destruct d']; lia.
  - destruct (50 <? w'); (destruct d; [rewrite (Hd eq_refl)|destruct d']); lia.
Qed.

Lemma quick_trust_score_monotone_witness :
  quick_trust_score 10 1 false <= quick_trust_score 60 2 true.
Proof.
  apply (quick_trust_score_monotone 10 60 1 2 false true); [lia|lia|done].
Defined.

Lemma quick_trust_score_sum (w k : Z) (d : bool) :
  0 <= k ->
  quick_trust_score w k d
  = 30 + (if 50 <? w then 30 else 0) + 10 * Z.min 3 k + (if d then 10 else 0).
Proof.
  intros Hk. rewrite quick_trust_score_unfold. destruct (50 <? w), d; lia.
Qed.

(** For counts the two clamps change nothing: the score is the sum of the
    base and the three bonuses, a multiple of ten from 30 to 100; keywords
    beyond the third add nothing; the score is 100 exactly for more than 50
    words, three keywords or more and a date, and 30 exactly for at most 50
    words, no keyword and no date. *)
Theorem quick_trust_score_values (w k : Z) (d : bool) :
  0 <= k ->
  quick_trust_score w k d
  = 30 + (if 50 <? w then 30 else 0) + 10 * Z.min 3 k + (if d then 10 else 0)
  /\ (exists n, 3 <= n <= 10 /\ quick_trust_score w k d = 10 * n)
  /\ quick_trust_score w k d = quick_trust_score w (Z.min 3 k) d
  /\ (quick_trust_score w k d = 100 <-> 50 < w /\ 3 <= k /\ d = true)
  /\ (quick_trust_score w k d = 30 <-> w <= 50 /\ k = 0 /\ d = false).
Proof.
  intros Hk. rewrite (quick_trust_score_sum w (Z.min 3 k) d) by lia.
  rewrite (quick_trust_score_sum w k d Hk).
  split; [reflexivity|].
  split.
  { exists (3 + (if 50 <? w then 3 else 0) + Z.min 3 k + (if d then 1 else 0)).
    destruct (50 <? w), d; lia. }
  split; [by rewrite Z.min_assoc, Z.min_id|].
  destruct (50 <? w) eqn:Hlt;
    [apply Z.ltb_lt in Hlt|apply Z.ltb_ge in Hlt];
    destruct d; split; split; try lia; try done;
    intros (? & ? & ?); try done; lia.
Qed.

Lemma quick_trust_score_values_witness :
  quick_trust_score 51 7 true = 100 <-> 50 < 51 /\ 3 <= 7 /\ true = true.
Proof.
  apply (proj1 (proj2 (proj2 (proj2 (quick_trust_score_values 51 7 true
                                        ltac:(lia)))))).
Defined.

(** ** Normalising a bitmap *)





(** ** A bitmap without extent *)




(** ** The words of the joined text *)

(** White space ends the run being read and starts afresh. *)
Lemma split_go_barrier (cur : option string) (a : string) (c : ascii)
      (b : string) :
  Char.isspace c = true ->
  Str.split_go cur (String.append a (String c b))
  = Str.split_go cur a ++ Str.split_go None b.
Proof.
  intros Hc. revert cur. induction a as [|d a IH]; intros cur.
  - rewrite append_nil. simpl. rewrite Hc. by destruct cur.
  - rewrite append_cons. simpl. destruct (Char.isspace d).
    + destruct cur; by rewrite IH.
    + apply IH.
Qed.

Lemma split_space (c : ascii) (s : string) :
  Char.isspace c = true -> Str.split (String c s) = Str.split s.
Proof. intros Hc. unfold Str.split. simpl. by rewrite Hc. Qed.

Lemma split_lstrip (s : string) : Str.split (Str.lstrip s) = Str.split s.
Proof.
  induction s as [|c s IH]; [done|]. simpl Str.lstrip.
  destruct (Char.isspace c) eqn:Hc; [|done]. by rewrite IH, split_space.
Qed.

Lemma split_go_rstrip (cur : option string) (s : string) :
  Str.split_go cur (Str.rstrip s) = Str.split_go cur s.
Proof.
  revert cur. induction s as [|c s IH]; intros cur; [done|].
  rewrite rstrip_cons.
  destruct (bool_decide (Str.rstrip s = EmptyString) && Char.isspace c)
    eqn:Hb.
  - apply andb_true_iff in Hb as [Hr Hc]. apply bool_decide_eq_true in Hr.
    simpl. rewrite Hc. pose proof (IH None) as HN. rewrite Hr in HN.
    simpl in HN. rewrite <-HN. destruct cur; [done|done].
  - simpl. destruct (Char.isspace c); [destruct cur|]; by rewrite IH.
Qed.

Lemma split_strip (s : string) : Str.split (Str.strip s) = Str.split s.
Proof.
  unfold Str.strip, Str.split. rewrite split_go_rstrip. apply split_lstrip.
Qed.

(** A separator ends the words of one page, gives the marker, and the words
    of the rest follow. *)
Lemma split_separator (t r : string) :
  Str.split (String.append t (String.append PAGE_SEPARATOR r))
  = Str.split t ++ PAGE_MARKER :: Str.split r.
Proof.
  change (String.append PAGE_SEPARATOR r)
    with (String "010" (String "010" (String.append PAGE_MARKER
            (String "010" (String "010" r))))).
  unfold Str.split at 1. rewrite split_go_barrier by reflexivity.
  apply (f_equal (app (Str.split_go None t))). reflexivity.
Qed.

Lemma split_join (txts : list string) :
  Str.split (Str.join PAGE_SEPARATOR txts) = words_of_pages txts.
Proof.
  destruct txts as [|t ts]; [done|]. revert t.
  induction ts as [|t' ts IH]; intros t.
  - change (Str.join PAGE_SEPARATOR [t]) with t. simpl.
    by rewrite app_nil_r.
  - rewrite join_cons2, split_separator, IH. reflexivity.
Qed.




(** ** Pages without text *)

Lemma all_lower (p : ascii -> bool) (s : string) :
  Str.all p (Str.lower s) = Str.all (fun c => p (Char.lower c)) s.
Proof. induction s as [|c s IH]; [done|]. simpl. by rewrite IH. Qed.

Lemma all_lstrip (p : ascii -> bool) (s : string) :
  Str.all p s = true -> Str.all p (Str.lstrip s) = true.
Proof.
  induction s as [|c s IH]; [done|]. simpl Str.lstrip.
  destruct (Char.isspace c); [|done]. simpl. intros H.
  apply andb_true_iff in H as [_ H]. by apply IH.
Qed.

Lemma all_rstrip (p : ascii -> bool) (s : string) :
  Str.all p s = true -> Str.all p (Str.rstrip s) = true.
Proof.
  induction s as [|c s IH]; [done|]. rewrite rstrip_cons. simpl Str.all.
  intros H. apply andb_true_iff in H as [Hc Hs].
  destruct (_ && _); [done|]. simpl. by rewrite Hc, IH.
Qed.

Lemma all_strip (p : ascii -> bool) (s : string) :
  Str.all p s = true -> Str.all p (Str.strip s) = true.
Proof. intros H. by apply all_rstrip, all_lstrip. Qed.

Lemma contains_all (p : ascii -> bool) (kw s : string) :
  Str.all p s = true -> Str.contains kw s = true -> Str.all p kw = true.
Proof.
  intros Hs Hc. apply contains_spec in Hc as (a & b & ->).
  rewrite !all_append in Hs.
  apply andb_true_iff in Hs as [_ Hs]. by apply andb_true_iff in Hs as [Hs _].
Qed.

Lemma join_blank (p : ascii -> bool) (n : nat) :
  Str.all p PAGE_SEPARATOR = true ->
  Str.all p (Str.join PAGE_SEPARATOR (replicate n EmptyString)) = true.
Proof.
  intros Hp. destruct n as [|n]; [done|]. induction n as [|n IH]; [done|].
  change (replicate (S (S n)) EmptyString)
    with (EmptyString :: EmptyString :: replicate n EmptyString).
  rewrite join_cons2, append_nil, all_append, Hp. exact IH.
Qed.

Lemma words_of_pages_blank (n : nat) :
  words_of_pages (replicate n EmptyString) = replicate (n - 1) PAGE_MARKER.
Proof.
  destruct n as [|n]; [done|]. simpl. rewrite Nat.sub_0_r.
  induction n as [|n IH]; [done|]. simpl. by rewrite IH.
Qed.

(** A text made of separators only has no date and no issuer keyword. *)
Lemma blank_text_scan (n : nat) :
  has_dates_of
    (words_of (Str.strip (Str.join PAGE_SEPARATOR (replicate n EmptyString))))
    (Str.strip (Str.join PAGE_SEPARATOR (replicate n EmptyString)))
  = (Ret false, [])
  /\ detect_issuer_in_text
       (Some (Str.strip (Str.join PAGE_SEPARATOR (replicate n EmptyString))))
     = [].
Proof.
  set (t := Str.strip (Str.join PAGE_SEPARATOR (replicate n EmptyString))).
  assert (Str.all marker_char (Str.lower t) = true) as Hchars.
  { rewrite all_lower. apply all_strip, join_blank. reflexivity. }
  assert (forall kw, Str.all marker_char kw = false ->
                     Str.contains kw (Str.lower t) = false) as Hno.
  { intros kw Hkw. destruct (Str.contains kw (Str.lower t)) eqn:Hc; [|done].
    by rewrite (contains_all _ _ _ Hchars Hc) in Hkw. }
  assert (Str.split t = replicate (n - 1) PAGE_MARKER) as Hsplit.
  { unfold t. by rewrite split_strip, split_join, words_of_pages_blank. }
  split.
  - rewrite has_dates_of_no_odd.
    + unfold date_spec. rewrite Hsplit.
      assert (existsb year_token (replicate (n - 1) PAGE_MARKER) = false) as ->.
      { clear. induction (n - 1)%nat as [|m IH]; [done|]. simpl. exact IH. }
      simpl. by rewrite !Hno.
    + rewrite Hsplit. apply Forall_replicate. reflexivity.
  - unfold detect_issuer_in_text. rewrite str_or_some_empty.
    unfold KNOWN_ISSUERS. simpl foldl. by rewrite !Hno.
Qed.

Lemma ocr_easyocr_pil_unavailable {Image Num} (E : Env Image Num)
      (img : Image) :
  EASYOCR_OK E = false \/ reader E = None ->
  ocr_easyocr_pil E img = (Raise (RuntimeError ENGINE_MISSING), [StepRecognize]).
Proof.
  unfold ocr_easyocr_pil. intros [-> | ->]; [done|].
  by destruct (EASYOCR_OK E).
Qed.

(** When recognition raises on every page the loop adds one empty text per
    page and no confidence. *)
Lemma pdf_loop_all_fail {Image Num} (E : Env Image Num) (pages : list Image)
      (st : Pages Num) :
  Forall (recognition_fails E) pages ->
  fst (pdf_loop E pages st)
  = Ret (mkPages (texts st ++ replicate (length pages) EmptyString)
                 (confidences st)
                 (pages_seen st + Z.of_nat (length pages))).
Proof.
  intros Hall. revert st.
  induction Hall as [|p pages (pre & e & Hpre & Hocr) _ IH]; intros st.
  - simpl. rewrite app_nil_r, Z.add_0_r. by destruct st.
  - destruct (pdf_loop_cons E p pages st pre Hpre) as [l ->]. cbn [fst].
    rewrite IH. unfold page_step. rewrite fst_bind, Hpre, Hocr.
    cbn [texts confidences pages_seen]. rewrite <-app_assoc.
    simpl length. do 2 f_equal. lia.
Qed.

(** With the engine missing, an image that decodes and normalises is answered
    500 [ocr_failed], but a PDF whose pages normalise is answered 200: every
    page is empty, the words are the markers between the pages, there is no
    issuer, no date and no confidence, and the score is 30, or 60 from 52
    pages on. *)
Theorem api_verify_engine_unavailable {Image Num} (E : Env Image Num)
        (req : Request) (f : FileStorage) :
  files_get "file" (files req) = Some f ->
  EASYOCR_OK E = false \/ reader E = None ->
  (forall img,
      is_pdf (str_or (filename f) "upload") (stream f) = false ->
      image_open E (stream f) = inr img ->
      normalizes E (convert E img "RGB") ->
      fst (api_verify E req)
      = jsonify_error "ocr_failed" None (Some ENGINE_MISSING)
          (Some (format_exc E (RuntimeError ENGINE_MISSING))) 500)
  /\ (forall pages,
         is_pdf (str_or (filename f) "upload") (stream f) = true ->
         PDF2IMAGE_OK E = true ->
         convert_from_bytes E (stream f) 200 = inr pages ->
         Forall (normalizes E) pages ->
         exists v,
           fst (api_verify E req) = mkResponse (ResultJson v) 200
           /\ page_count v = Z.of_nat (length pages)
           /\ words_of (full_text v)
              = replicate (length pages - 1) PAGE_MARKER
           /\ word_count v = Z.of_nat (length pages - 1)
           /\ detected_issuers v = []
           /\ has_dates v = false
           /\ avg_ocr_confidence v = None
           /\ trust_score v = if 51 <? Z.of_nat (length pages) then 60 else 30).
Proof.
  intros Hf Hdown. split.
  - intros img Hpdf Himg [pre Hpre].
    rewrite (api_verify_some E req f Hf). cbv zeta.
    rewrite (collect_pages_image E _ _ img Hpdf Himg), Hpre. cbn [fst].
    by rewrite (ocr_easyocr_pil_unavailable E pre Hdown).
  - intros pages Hpdf Hok Hconv Hnorm.
    assert (Forall (recognition_fails E) pages) as Hfail.
    { eapply Forall_impl; [exact Hnorm|]. intros p [pre Hpre].
      exists pre, (RuntimeError ENGINE_MISSING). split; [exact Hpre|].
      by rewrite (ocr_easyocr_pil_unavailable E pre Hdown). }
    rewrite (api_verify_some E req f Hf). cbv zeta.
    rewrite (collect_pages_pdf E _ _ pages Hpdf Hok Hconv).
    rewrite (pdf_loop_all_fail E pages _ Hfail).
    cbn [texts confidences pages_seen app fst].
    destruct (blank_text_scan (length pages)) as [Hscan Hiss].
    rewrite Hscan. cbn [fst]. eexists. split; [reflexivity|].
    cbn [page_count full_text word_count detected_issuers has_dates
         avg_ocr_confidence trust_score result_of texts confidences pages_seen].
    rewrite Hiss. rewrite words_of_split, split_strip, split_join,
      words_of_pages_blank, length_replicate.
    split; [lia|]. split; [done|]. split; [done|]. split; [done|].
    split; [done|]. split; [done|].
    rewrite quick_trust_score_unfold. simpl length.
    destruct (51 <? Z.of_nat (length pages)) eqn:Hn.
    + apply Z.ltb_lt in Hn. rewrite (proj2 (Z.ltb_lt _ _)) by lia. done.
    + apply Z.ltb_ge in Hn. rewrite (proj2 (Z.ltb_ge _ _)) by lia. done.
Qed.

Lemma api_verify_engine_unavailable_witness :
  exists v,
    fst (api_verify (offline_env [page ["a"]; page ["b"]] None)
                    (upload (Some "scan.pdf") PDF_MAGIC))
    = mkResponse (ResultJson v) 200
    /\ word_count v = 1 /\ trust_score v = 30.
Proof.
  destruct (proj2 (api_verify_engine_unavailable
                     (offline_env [page ["a"]; page ["b"]] None)
                     (upload (Some "scan.pdf") PDF_MAGIC)
                     (mkFile (Some "scan.pdf") PDF_MAGIC) eq_refl
                     (or_introl eq_refl))
                  [page ["a"]; page ["b"]] eq_refl eq_refl eq_refl
                  ltac:(repeat constructor; eexists; reflexivity))
    as (v & Hv & _ & _ & Hw & _ & _ & _ & Ht).
  exists v. split; [exact Hv|]. split; [exact Hw|exact Ht].
Defined.

(** ** The answers of the OCR route *)

Section Answers.

Context {Image Num : Type} (E : Env Image Num).

Lemma collect_pages_pdf_missing fn raw :
  is_pdf fn raw = true -> PDF2IMAGE_OK E = false ->
  collect_pages E fn raw
  = (Ret (Return (jsonify_error "pdf_uploaded_but_pdf2image_missing"
            (Some "Install pdf2image and poppler to enable PDF support.")
            None None 400)), []).
Proof. intros Hpdf Hok. unfold collect_pages. by rewrite Hpdf, Hok. Qed.

Lemma collect_pages_pdf_failed fn raw e :
  is_pdf fn raw = true -> PDF2IMAGE_OK E = true ->
  convert_from_bytes E raw 200 = inl e ->
  collect_pages E fn raw
  = (Ret (Return (jsonify_error "pdf_conversion_failed" None
                    (Some (exn_str e)) (Some (format_exc E e)) 500)),
     [StepExtract]).
Proof.
  intros Hpdf Hok Hconv. unfold collect_pages, convert_pdf_bytes_to_pil_list.
  by rewrite Hpdf, Hok, Hconv.
Qed.

Lemma collect_pages_unreadable fn raw e :
  is_pdf fn raw = false -> image_open E raw = inl e ->
  collect_pages E fn raw
  = (Ret (Return (jsonify_error "cannot_read_image" None (Some (exn_str e))
                    None 400)), [StepExtract]).
Proof.
  intros Hpdf Himg. unfold collect_pages, pil_from_bytes.
  by rewrite Hpdf, Himg.
Qed.

End Answers.

(** Every answer is a 200 with a result, a 400 with one of the three client
    codes and no trace, or a 500 with one of the three server codes, the
    exception's message and a trace.  An upload taken for a PDF is never
    answered with a code of the image path, and the other way round. *)
Theorem api_verify_answers {Image Num} (E : Env Image Num) (req : Request) :
  ((exists v, fst (api_verify E req) = mkResponse (ResultJson v) 200)
   \/ (exists e, fst (api_verify E req) = mkResponse (ErrorJson e) 400
                 /\ error e ∈ CLIENT_ERRORS /\ trace e = None)
   \/ (exists e, fst (api_verify E req) = mkResponse (ErrorJson e) 500
                 /\ error e ∈ SERVER_ERRORS
                 /\ is_Some (details e) /\ is_Some (trace e)))
  /\ (forall f e s,
        files_get "file" (files req) = Some f ->
        fst (api_verify E req) = mkResponse (ErrorJson e) s ->
        if is_pdf (str_or (filename f) "upload") (stream f)
        then error e <> "cannot_read_image" /\ error e <> "ocr_failed"
        else error e <> "pdf_uploaded_but_pdf2image_missing"
             /\ error e <> "pdf_conversion_failed").
Proof.
  destruct (files_get "file" (files req)) as [f|] eqn:Hf.
  2:{ split.
      - right; left. unfold api_verify, api_verify_try. rewrite Hf.
        eexists. split; [reflexivity|]. split; [|done].
        unfold CLIENT_ERRORS. rewrite !elem_of_cons. auto.
      - by intros f e s [=]. }
  rewrite (api_verify_some E req f Hf). cbv zeta.
  assert (forall x : Exn,
    exists e, internal_server_error E x = mkResponse (ErrorJson e) 500
              /\ error e ∈ SERVER_ERRORS
              /\ is_Some (details e) /\ is_Some (trace e)) as Hint.
  { intros x. eexists. split; [reflexivity|]. split; [|by split; eexists].
    unfold SERVER_ERRORS. rewrite !elem_of_cons. auto. }
  destruct (is_pdf (str_or (filename f) "upload") (stream f)) eqn:Hpdf.
  - destruct (PDF2IMAGE_OK E) eqn:Hok.
    + destruct (convert_from_bytes E (stream f) 200) as [x|pages] eqn:Hconv.
      * rewrite (collect_pages_pdf_failed E _ _ x Hpdf Hok Hconv). cbn [fst].
        split.
        -- right; right. eexists. split; [reflexivity|].
           split; [|by split; eexists].
           unfold SERVER_ERRORS. rewrite !elem_of_cons. auto.
        -- intros f0 e s [= <-] [= <- _]. by rewrite Hpdf.
      * rewrite (collect_pages_pdf E _ _ pages Hpdf Hok Hconv).
        destruct (fst (pdf_loop E pages _)) as [st|x]; cbn [fst].
        -- destruct (fst (has_dates_of _ _)) as [d|x].
           ++ split; [left; by eexists|]. by intros f0 e s _ [=].
           ++ split; [right; right; apply Hint|].
              intros f0 e s [= <-] [= <- _]. by rewrite Hpdf.
        -- split; [right; right; apply Hint|].
           intros f0 e s [= <-] [= <- _]. by rewrite Hpdf.
    + rewrite (collect_pages_pdf_missing E _ _ Hpdf Hok). cbn [fst]. split.
      * right; left. eexists. split; [reflexivity|]. split; [|done].
        unfold CLIENT_ERRORS. rewrite !elem_of_cons. auto.
      * intros f0 e s [= <-] [= <- _]. by rewrite Hpdf.
  - destruct (image_open E (stream f)) as [x|img] eqn:Himg.
    + rewrite (collect_pages_unreadable E _ _ x Hpdf Himg). cbn [fst]. split.
      * right; left. eexists. split; [reflexivity|]. split; [|done].
        unfold CLIENT_ERRORS. rewrite !elem_of_cons. auto.
      * intros f0 e s [= <-] [= <- _]. by rewrite Hpdf.
    + rewrite (collect_pages_image E _ _ img Hpdf Himg).
      destruct (fst (preprocess_for_ocr E _ MIN_DIM)) as [pre|x]; cbn [fst].
      * destruct (fst (ocr_easyocr_pil E pre)) as [[[txt conf] meta]|x];
          cbn [fst].
        -- destruct (fst (has_dates_of _ _)) as [d|x].
           ++ split; [left; by eexists|]. by intros f0 e s _ [=].
           ++ split; [right; right; apply Hint|].
              intros f0 e s [= <-] [= <- _]. by rewrite Hpdf.
        -- split.
           ++ right; right. eexists. split; [reflexivity|].
              split; [|by split; eexists].
              unfold SERVER_ERRORS. rewrite !elem_of_cons. auto.
           ++ intros f0 e s [= <-] [= <- _]. by rewrite Hpdf.
      * split; [right; right; apply Hint|].
        intros f0 e s [= <-] [= <- _]. by rewrite Hpdf.
Qed.

(** ** Which library an upload reaches *)

Lemma pdf_loop_with_decoder {Image Num} (E : Env Image Num)
      (decoder : list byte -> Exn + Image) (pages : list Image)
      (st : Pages Num) :
  pdf_loop (with_decoder E decoder) pages st = pdf_loop E pages st.
Proof.
  revert st. induction pages as [|p pages IH]; intros st; [done|].
  simpl. unfold mbind, M_bind, bind.
  change (preprocess_for_ocr (with_decoder E decoder) p MIN_DIM)
    with (preprocess_for_ocr E p MIN_DIM).
  destruct (preprocess_for_ocr E p MIN_DIM) as [[pre|e] l]; [|done].
  change (ocr_easyocr_pil (with_decoder E decoder) pre)
    with (ocr_easyocr_pil E pre).
  destruct (attempt (ocr_easyocr_pil E pre)) as [[r|e] l']; [|done].
  by rewrite IH.
Qed.

(** An upload taken for a PDF never reaches the image decoder, and any other
    upload never reaches the rasteriser: the answer and the steps stay the
    same when that library is exchanged. *)
Theorem api_verify_paths_apart {Image Num} (E : Env Image Num) (req : Request)
        (f : FileStorage) :
  files_get "file" (files req) = Some f ->
  (is_pdf (str_or (filename f) "upload") (stream f) = true ->
   forall decoder,
     api_verify (with_decoder E decoder) req = api_verify E req)
  /\ (is_pdf (str_or (filename f) "upload") (stream f) = false ->
      forall present rasteriser,
        api_verify (with_rasteriser E present rasteriser) req
        = api_verify E req).
Proof.
  intros Hf. split.
  - intros Hpdf decoder.
    unfold api_verify, api_verify_try. rewrite Hf.
    assert (collect_pages (with_decoder E decoder)
                          (str_or (filename f) "upload") (stream f)
            = collect_pages E (str_or (filename f) "upload") (stream f))
      as Hc.
    { unfold collect_pages. rewrite Hpdf.
      change (PDF2IMAGE_OK (with_decoder E decoder)) with (PDF2IMAGE_OK E).
      destruct (PDF2IMAGE_OK E) eqn:Hok; [|done]. cbn [negb].
      unfold convert_pdf_bytes_to_pil_list.
      change (PDF2IMAGE_OK (with_decoder E decoder)) with (PDF2IMAGE_OK E).
      change (convert_from_bytes (with_decoder E decoder))
        with (convert_from_bytes E).
      rewrite Hok. cbn [negb].
      destruct (convert_from_bytes E (stream f) 200) as [e|pages]; [done|].
      simpl. unfold mbind, M_bind, bind. simpl.
      by rewrite pdf_loop_with_decoder. }
    unfold mbind, M_bind, bind. simpl. unfold mbind, M_bind, bind.
    rewrite Hc. reflexivity.
  - intros Hpdf present rasteriser.
    unfold api_verify, api_verify_try. rewrite Hf.
    assert (collect_pages (with_rasteriser E present rasteriser)
                          (str_or (filename f) "upload") (stream f)
            = collect_pages E (str_or (filename f) "upload") (stream f))
      as Hc.
    { unfold collect_pages. by rewrite Hpdf. }
    unfold mbind, M_bind, bind. simpl. unfold mbind, M_bind, bind.
    rewrite Hc. reflexivity.
Qed.

Lemma api_verify_paths_apart_witness :
  api_verify (with_decoder (example_env [page ["a"]] None)
                           (fun _ => inr (page ["b"])))
             (upload (Some "scan.pdf") PNG_BYTES)
  = api_verify (example_env [page ["a"]] None)
               (upload (Some "scan.pdf") PNG_BYTES).
Proof.
  apply (proj1 (api_verify_paths_apart (example_env [page ["a"]] None)
                  (upload (Some "scan.pdf") PNG_BYTES)
                  (mkFile (Some "scan.pdf") PNG_BYTES) eq_refl) eq_refl).
Defined.

(** ** A PDF without pages *)

(** A PDF that rasterises to no page at all is answered 200: no page, no
    text, no word, no issuer, no date, no confidence, and the base score. *)
Theorem api_verify_no_pages {Image Num} (E : Env Image Num) (req : Request)
        (f : FileStorage) :
  files_get "file" (files req) = Some f ->
  is_pdf (str_or (filename f) "upload") (stream f) = true ->
  PDF2IMAGE_OK E = true ->
  convert_from_bytes E (stream f) 200 = inr [] ->
  api_verify E req
  = (mkResponse
       (ResultJson
          (mkResult (str_or (filename f) "upload")
                    (sha256_hexdigest E (stream f)) 0 EmptyString EmptyString
                    0 [] false None 30))
       200,
     [StepRead; StepHash; StepExtract; StepScore]).
Proof.
  intros Hf Hpdf Hok Hconv.
  rewrite (api_verify_some E req f Hf). cbv zeta.
  by rewrite (collect_pages_pdf E _ _ [] Hpdf Hok Hconv).
Qed.

Lemma api_verify_no_pages_witness :
  fst (api_verify (example_env [] None) (upload (Some "empty.pdf") PDF_MAGIC))
  = mkResponse
      (ResultJson (mkResult "empty.pdf" "e3b0c442" 0 EmptyString EmptyString
                            0 [] false None 30))
      200.
Proof.
  rewrite (api_verify_no_pages (example_env [] None)
             (upload (Some "empty.pdf") PDF_MAGIC)
             (mkFile (Some "empty.pdf") PDF_MAGIC) eq_refl eq_refl eq_refl
             eq_refl).
  reflexivity.
Defined.

(** ** The full text is trimmed *)

Lemma rstrip_idem (s : string) : Str.rstrip (Str.rstrip s) = Str.rstrip s.
Proof.
  induction s as [|c s IH]; [done|]. rewrite rstrip_cons.
  destruct (bool_decide (Str.rstrip s = EmptyString) && Char.isspace c)
    eqn:Hb; [done|].
  by rewrite rstrip_cons, IH, Hb.
Qed.

Lemma lstrip_head (s : string) :
  Str.lstrip s = EmptyString
  \/ exists c t, Str.lstrip s = String c t /\ Char.isspace c = false.
Proof.
  induction s as [|c s IH]; [by left|]. simpl.
  destruct (Char.isspace c) eqn:Hc; [exact IH|]. right. by exists c, s.
Qed.

Lemma lstrip_strip (s : string) : Str.lstrip (Str.strip s) = Str.strip s.
Proof.
  unfold Str.strip. destruct (lstrip_head s) as [->|(c & t & -> & Hc)]; [done|].
  rewrite rstrip_cons, Hc, andb_false_r. simpl. by rewrite Hc.
Qed.

Lemma strip_idem (s : string) : Str.strip (Str.strip s) = Str.strip s.
Proof.
  unfold Str.strip at 1. rewrite lstrip_strip. unfold Str.strip.
  apply rstrip_idem.
Qed.

Lemma split_go_some (w : string) (s : string) : Str.split_go (Some w) s <> [].
Proof.
  revert w. induction s as [|c s IH]; intros w; [done|]. simpl.
  destruct (Char.isspace c); [done|apply IH].
Qed.

Lemma split_nil (s : string) :
  Str.split s = [] <-> Str.all Char.isspace s = true.
Proof.
  unfold Str.split. induction s as [|c s IH]; [done|]. simpl.
  destruct (Char.isspace c); [exact IH|]. split; [|done].
  intros H. by apply split_go_some in H.
Qed.

Lemma lstrip_all_space (s : string) :
  Str.all Char.isspace s = true -> Str.lstrip s = EmptyString.
Proof.
  induction s as [|c s IH]; [done|]. simpl. intros H.
  apply andb_true_iff in H as [-> Hs]. by apply IH.
Qed.

(** A trimmed text without a word is empty. *)
Lemma trimmed_no_word (s : string) :
  Str.strip s = s -> Str.split s = [] -> s = EmptyString.
Proof.
  intros Ht Hs. apply split_nil in Hs. rewrite <-Ht. unfold Str.strip.
  by rewrite (lstrip_all_space s Hs).
Qed.

(** The full text of a 200 answer neither starts nor ends with white space;
    it is empty exactly when the word count is 0, and then the snippet is
    empty, there is no issuer and no date, and the score is the base 30. *)
Theorem api_verify_full_text_trimmed {Image Num} (E : Env Image Num)
        (req : Request) (v : VerificationResult Num) (s : Z) :
  fst (api_verify E req) = mkResponse (ResultJson v) s ->
  Str.strip (full_text v) = full_text v
  /\ 0 <= word_count v
  /\ (word_count v = 0 <-> full_text v = EmptyString)
  /\ (full_text v = EmptyString ->
      extracted_text_snippet v = EmptyString /\ detected_issuers v = []
      /\ has_dates v = false /\ trust_score v = 30).
Proof.
  intros Hok.
  destruct (api_verify_ok_inv E req v s Hok)
    as (f & st & d & l & _ & _ & Hd & -> & _).
  cbn [full_text word_count extracted_text_snippet detected_issuers has_dates
       trust_score result_of].
  set (ft := Str.strip (Str.join PAGE_SEPARATOR (texts st))) in *.
  assert (Str.strip ft = ft) as Htrim by apply strip_idem.
  split; [exact Htrim|]. split; [lia|]. split.
  - rewrite words_of_split. split.
    + intros Hz. apply (trimmed_no_word ft Htrim).
      destruct (Str.split ft); [done|simpl in Hz; lia].
    + by intros ->.
  - intros Hempty. rewrite Hempty in *. simpl in Hd.
    injection Hd as <-. done.
Qed.

Lemma api_verify_full_text_trimmed_witness :
  exists v,
    fst (api_verify (example_env [] (Some (page ["  Degree  "])))
                    (upload None PNG_BYTES))
    = mkResponse (ResultJson v) 200
    /\ full_text v = "Degree"
    /\ Str.strip (full_text v) = full_text v.
Proof.
  eexists. split; [vm_compute; reflexivity|]. split; [reflexivity|].
  exact (proj1 (api_verify_full_text_trimmed
                  (example_env [] (Some (page ["  Degree  "])))
                  (upload None PNG_BYTES) _ 200 eq_refl)).
Defined.

(** ** Issuer detection: case, order of growth, bound *)

Lemma char_lower_idem (c : ascii) : Char.lower (Char.lower c) = Char.lower c.
Proof. destruct c as [[] [] [] [] [] [] [] []]; reflexivity. Qed.

Lemma lower_idem (s : string) : Str.lower (Str.lower s) = Str.lower s.
Proof.
  induction s as [|c s IH]; [done|]. simpl. by rewrite char_lower_idem, IH.
Qed.

Lemma lower_nonempty (s : string) :
  Str.lower s = EmptyString <-> s = EmptyString.
Proof. by destruct s. Qed.

Lemma detect_issuer_in_text_elem (text : option string) (kw : string) :
  kw ∈ detect_issuer_in_text text
  <-> kw ∈ KNOWN_ISSUERS
      /\ Str.contains kw (Str.lower (str_or text EmptyString)) = true.
Proof.
  unfold detect_issuer_in_text.
  destruct (sorted_spec
    (foldl (fun (found : gset string) kw =>
              if Str.contains kw (Str.lower (str_or text EmptyString))
              then found ∪ {[ kw ]} else found) ∅ KNOWN_ISSUERS))
    as (_ & _ & Hm).
  rewrite Hm, found_spec. split; [|by right].
  intros [H|H]; [by apply not_elem_of_empty in H|done].
Qed.

(** The detected issuers depend on the lower-cased text only. *)
Lemma detect_issuer_in_text_lower (t : string) :
  detect_issuer_in_text (Some (Str.lower t)) = detect_issuer_in_text (Some t).
Proof.
  unfold detect_issuer_in_text. by rewrite !str_or_some_empty, lower_idem.
Qed.

(** Issuer detection ignores the case of the text, finds nothing in a
    missing or empty text, keeps every issuer when text is added before or
    after, and returns at most the fifteen listed keywords. *)
Theorem detect_issuer_in_text_stable (t : string) :
  detect_issuer_in_text (Some (Str.lower t)) = detect_issuer_in_text (Some t)
  /\ detect_issuer_in_text None = []
  /\ detect_issuer_in_text (Some EmptyString) = []
  /\ (forall a b kw,
        kw ∈ detect_issuer_in_text (Some t) ->
        kw ∈ detect_issuer_in_text
               (Some (String.append a (String.append t b))))
  /\ detect_issuer_in_text (Some t) ⊆+ KNOWN_ISSUERS
  /\ (length (detect_issuer_in_text (Some t)) <= 15)%nat.
Proof.
  split; [apply detect_issuer_in_text_lower|].
  split; [reflexivity|]. split; [reflexivity|].
  assert (detect_issuer_in_text (Some t) ⊆+ KNOWN_ISSUERS) as Hsub.
  { apply NoDup_submseteq.
    - apply detect_issuer_in_text_spec.
    - intros kw Hkw. by apply detect_issuer_in_text_elem in Hkw as [? _]. }
  split; [|split; [exact Hsub|]].
  - intros a b kw Hkw. apply detect_issuer_in_text_elem in Hkw as [Hin Hc].
    apply detect_issuer_in_text_elem. split; [done|].
    rewrite str_or_some_empty in *. rewrite !lower_append.
    apply contains_spec in Hc as (x & y & ->). apply contains_spec.
    exists (String.append (Str.lower a) x), (String.append y (Str.lower b)).
    by rewrite !append_assoc.
  - apply submseteq_length in Hsub. exact Hsub.
Qed.

(** ** The phrase that counts twice *)

Lemma contains_trans (a b s : string) :
  Str.contains a b = true -> Str.contains b s = true ->
  Str.contains a s = true.
Proof.
  intros Hab Hbs. apply contains_spec in Hab as (x & y & ->).
  apply contains_spec in Hbs as (u & w & ->). apply contains_spec.
  exists (String.append u x), (String.append y w). by rewrite !append_assoc.
Qed.

(** A text with the phrase [issued on], in any case, has a date and the
    issuer [issued]: the phrase is scored twice, and a 200 answer whose full
    text has it scores at least 50. *)
Theorem issued_on_counts_twice (t : string) :
  Str.contains "issued on" (Str.lower t) = true ->
  "issued" ∈ detect_issuer_in_text (Some t)
  /\ (forall d, fst (has_dates_of (words_of t) t) = Ret d -> d = true)
  /\ (forall Image Num (E : Env Image Num) req v s,
        fst (api_verify E req) = mkResponse (ResultJson v) s ->
        full_text v = t ->
        has_dates v = true /\ "issued" ∈ detected_issuers v
        /\ 50 <= trust_score v).
Proof.
  intros Hphrase.
  assert ("issued" ∈ detect_issuer_in_text (Some t)) as Hissuer.
  { apply detect_issuer_in_text_elem. split.
    - unfold KNOWN_ISSUERS. rewrite !elem_of_cons. auto 10.
    - rewrite str_or_some_empty.
      by apply (contains_trans "issued" "issued on"). }
  assert (date_spec t = true) as Hdate.
  { unfold date_spec. apply orb_true_iff. right. simpl. by rewrite Hphrase. }
  split; [exact Hissuer|]. split.
  - intros d Hd. by rewrite (has_dates_of_Ret t d Hd).
  - intros Image Num E req v s Hok Hft.
    destruct (api_verify_ok_inv E req v s Hok)
      as (f & st & d & l & _ & _ & Hd & Hv & _).
    rewrite Hv in Hft. cbn [full_text result_of] in Hft. rewrite Hft in Hd.
    apply has_dates_of_Ret in Hd. rewrite Hdate in Hd.
    rewrite (api_verify_trust_score E req v s Hok).
    rewrite Hv. cbn [has_dates detected_issuers word_count result_of].
    rewrite Hft, Hd. split; [done|]. split; [exact Hissuer|].
    rewrite quick_trust_score_unfold.
    destruct (detect_issuer_in_text (Some t)) as [|x xs];
      [by apply elem_of_nil in Hissuer|].
    simpl length. destruct (50 <? _); lia.
Qed.

Lemma issued_on_counts_twice_witness :
  "issued" ∈ detect_issuer_in_text (Some "Issued On 3 May").
Proof.
  apply (proj1 (issued_on_counts_twice "Issued On 3 May" eq_refl)).
Defined.

(** ** Which uploads are taken for a PDF *)

Lemma endswith_cons (c : ascii) (s p : string) :
  Str.endswith (String c s) p
  = String.eqb (String c s) p || Str.endswith s p.
Proof. reflexivity. Qed.

Lemma endswith_empty (p : string) :
  Str.endswith EmptyString p = String.eqb EmptyString p.
Proof. unfold Str.endswith. apply orb_false_r. Qed.

Lemma endswith_spec (s p : string) :
  Str.endswith s p = true <-> exists a, s = String.append a p.
Proof.
  split.
  - induction s as [|c s IH]; intros H.
    + rewrite endswith_empty in H. apply String.eqb_eq in H as <-.
      by exists EmptyString.
    + rewrite endswith_cons in H. apply orb_true_iff in H as [H|H].
      * apply String.eqb_eq in H as <-. by exists EmptyString.
      * destruct (IH H) as [a ->]. by exists (String c a).
  - intros [a ->]. induction a as [|c a IH].
    + rewrite append_nil. destruct p as [|d p].
      * reflexivity.
      * rewrite endswith_cons, String.eqb_refl. reflexivity.
    + rewrite append_cons, endswith_cons, IH. apply orb_true_r.
Qed.

(** An upload is taken for a PDF exactly when its name ends in [.pdf]
    written in any case or its bytes start with [%PDF]; the case of the name
    does not matter, and an upload without a name is judged by its bytes. *)
Theorem is_pdf_spec (fn : string) (raw : list byte) :
  (is_pdf fn raw = true
   <-> (exists stem ext, fn = String.append stem ext
                         /\ Str.lower ext = ".pdf")
       \/ (exists rest, raw = PDF_MAGIC ++ rest))
  /\ is_pdf (Str.lower fn) raw = is_pdf fn raw
  /\ (is_pdf (str_or None "upload") raw = true
      <-> exists rest, raw = PDF_MAGIC ++ rest).
Proof.
  assert (bool_decide (take 4 raw = PDF_MAGIC) = true
          <-> exists rest, raw = PDF_MAGIC ++ rest) as Hmagic.
  { rewrite bool_decide_eq_true. split.
    - intros H. exists (drop 4 raw). by rewrite <-H, take_drop.
    - by intros [rest ->]. }
  split; [|split].
  - unfold is_pdf. rewrite orb_true_iff, Hmagic, endswith_spec.
    split; (intros [H|H]; [left|by right]).
    + destruct H as [a Ha].
      destruct (lower_split _ _ _ Ha) as (stem & ext & -> & _ & Hext).
      by exists stem, ext.
    + destruct H as (stem & ext & -> & Hext).
      exists (Str.lower stem). by rewrite lower_append, Hext.
  - unfold is_pdf. by rewrite lower_idem.
  - unfold is_pdf. simpl str_or. by rewrite <-Hmagic.
Qed.

(** ** What recognition returns *)

Lemma strings_of_Ret {Num} (texts : list (PyVal Num)) (strs : list string) :
  fst (strings_of texts) = Ret strs <-> texts = map VStr strs.
Proof.
  revert strs. induction texts as [|x texts IH]; intros strs.
  - simpl. split; [intros [= <-]; done|]. by destruct strs.
  - destruct x as [s0| |]; simpl.
    + rewrite fst_bind.
      destruct (fst (strings_of texts)) as [l|e] eqn:Hl.
      * split.
        -- intros [= <-]. simpl. f_equal. by apply IH.
        -- destruct strs as [|s1 strs]; [done|]. intros [= -> Ht].
           apply IH in Ht. by injection Ht as ->.
      * split; [done|]. destruct strs as [|s1 strs]; [done|].
        intros [= _ Ht]. by apply IH in Ht.
    + split; [done|]. by destruct strs.
    + split; [done|]. by destruct strs.
Qed.

Lemma detection_texts_triples {Num} (dets : list (string * Num)) :
  detection_texts (map triple dets) = map VStr (map fst dets).
Proof. induction dets as [|d dets IH]; [done|]. simpl. by rewrite <-IH. Qed.

Lemma detection_confs_triples {Num} (dets : list (string * Num)) :
  detection_confs (map triple dets) = map snd dets.
Proof.
  induction dets as [|d dets IH]; [done|].
  change (detection_confs (map triple (d :: dets)))
    with (snd d :: detection_confs (map triple dets)).
  by rewrite IH.
Qed.

(** Recognition returns exactly when the engine is there, its call returns
    and the second component of every detection that has one is a string;
    the text is then these strings joined by newlines in the engine's order
    and the confidence is the mean of the numeric third components, absent
    when there is none.  For detections that are all triples the text is the
    join of all texts and the confidence the mean of all numbers. *)
Theorem ocr_easyocr_pil_returns {Image Num} (E : Env Image Num) (img : Image)
        (txt : string) (conf : option Num) (results : list (Detection Num)) :
  (fst (ocr_easyocr_pil E img) = Ret (txt, conf, results)
   <-> EASYOCR_OK E = true
       /\ exists readtext strs,
            reader E = Some readtext
            /\ readtext (convert E img "RGB") = inr results
            /\ detection_texts results = map VStr strs
            /\ txt = Str.join NEWLINE strs
            /\ conf = match detection_confs results with
                      | [] => None
                      | c => Some (mean E c)
                      end)
  /\ (forall readtext dets,
        EASYOCR_OK E = true -> reader E = Some readtext ->
        readtext (convert E img "RGB") = inr (map triple dets) ->
        fst (ocr_easyocr_pil E img)
        = Ret (Str.join NEWLINE (map fst dets),
               match dets with
               | [] => None
               | _ => Some (mean E (map snd dets))
               end,
               map triple dets)).
Proof.
  assert (forall readtext res,
    EASYOCR_OK E = true -> reader E = Some readtext ->
    readtext (convert E img "RGB") = inr res ->
    fst (ocr_easyocr_pil E img)
    = match fst (strings_of (detection_texts res)) with
      | Ret strs => Ret (Str.join NEWLINE strs,
                         match detection_confs res with
                         | [] => None
                         | c => Some (mean E c)
                         end, res)
      | Raise e => Raise e
      end) as Hrun.
  { intros readtext res Hok Hr Hread. unfold ocr_easyocr_pil.
    rewrite Hok, Hr, Hread. simpl. unfold mbind, M_bind, bind. simpl.
    destruct (strings_of (detection_texts res)) as [[strs|e] l]; [|done].
    simpl. by destruct (detection_confs res). }
  split.
  - split.
    + intros Hret. destruct (EASYOCR_OK E) eqn:Hok.
      2:{ by rewrite (ocr_easyocr_pil_unavailable E img (or_introl Hok))
            in Hret. }
      destruct (reader E) as [readtext|] eqn:Hr.
      2:{ by rewrite (ocr_easyocr_pil_unavailable E img (or_intror Hr))
            in Hret. }
      split; [done|]. exists readtext.
      destruct (readtext (convert E img "RGB")) as [e|res] eqn:Hread.
      { unfold ocr_easyocr_pil in Hret. by rewrite Hok, Hr, Hread in Hret. }
      rewrite (Hrun readtext res eq_refl eq_refl Hread) in Hret.
      destruct (fst (strings_of (detection_texts res))) as [strs|e] eqn:Hs;
        [|done].
      injection Hret as <- <- <-. exists strs.
      apply strings_of_Ret in Hs. done.
    + intros (Hok & readtext & strs & Hr & Hread & Ht & -> & ->).
      rewrite (Hrun readtext results Hok Hr Hread).
      by rewrite (proj2 (strings_of_Ret _ _) Ht).
  - intros readtext dets Hok Hr Hread.
    rewrite (Hrun readtext _ Hok Hr Hread).
    rewrite detection_texts_triples, detection_confs_triples.
    rewrite (proj2 (strings_of_Ret _ _) eq_refl).
    by destruct dets.
Qed.

(** ** Paths of plain names *)


















